(** * getCookies: browser acquisition and the cookie capture session

    A shallow embedding of [src/index.js] (package get-cookies-puppeteer).
    The two functions of the file, [getBrowser] and [getCookies], are
    written in a small state-and-exception monad.  Everything the file
    delegates to (puppeteer, [fs], [process.env], [JSON], [console]) is
    gathered in a [World]: the embedding records each external call in a
    chronological log and asks the world how the call settles. *)

From Stdlib Require Import ZArith Ascii DecimalString.
From stdpp Require Import base strings list gmap.

Open Scope string_scope.
Open Scope list_scope.
Open Scope stdpp_scope.

(** ** JavaScript values the code branches on *)

Module Js.

(** A value of type [string | undefined] is an [option string], [None]
    being [undefined].  Truthiness: [undefined] and the empty string are
    falsy, every other string is truthy. *)
Definition truthy (v : option string) : bool :=
  match v with
  | Some (String _ _) => true
  | _ => false
  end.

(** [a || b]: [a] when it is truthy, otherwise [b] whatever it is. *)
Definition or (a b : option string) : option string :=
  if truthy a then a else b.

(** The string a truthy value is, as seen inside [if (v) { ... }]. *)
Definition if_truthy (v : option string) : option string :=
  match v with
  | Some (String c s) => Some (String c s)
  | _ => None
  end.

(** Truthiness of a plain string, [if (cookieSavePath)]. *)
Definition nonempty (s : string) : bool :=
  match s with
  | EmptyString => false
  | String _ _ => true
  end.

End Js.

(** ** Data model *)

Inductive SameSite := Strict | Lax | NoRestriction.

(** The cookie object of the documentation of [getCookies]; the fields
    after [path] are optional in the cookies a caller supplies. *)
Record Cookie := {
  name : string;
  value : string;
  domain : string;
  path : string;
  expires : option Z;
  httpOnly : option bool;
  secure : option bool;
  sameSite : option SameSite
}.

(** The [connectionData] argument; a missing property is [None]. *)
Record ConnectionData := {
  executablePath : option string;
  browserWSEndpoint : option string
}.

(** The default value of the [connectionData] parameter. *)
Definition no_connectionData : ConnectionData :=
  {| executablePath := None; browserWSEndpoint := None |}.

(** ** The outside world *)

(** The calls the code makes on its collaborators. *)
Inductive Call :=
| puppeteer_connect (endpoint : string)
| puppeteer_launch (executable : string) (headless : bool)
| browser_setCookie (cookies : list Cookie)
| browser_newPage
| page_goto (url : string)
| page_on_response
| page_waitForFunction
| browser_cookies
| fs_writeFileSync (file : string) (data : string)
| browser_disconnect
| browser_close
| console_error (message : string).

(** How an external call ends: its promise fulfils, it rejects (a
    synchronous call throws), or it never settles. *)
Inductive Settle := Fulfils | Rejects | NeverSettles.

(** What a run of the code cannot see in its arguments: the two
    environment variables, how each external call settles, the snapshots
    that [browser.cookies()] yields for the response events delivered
    while the session waits (in delivery order; reads that do not yield a
    snapshot are outside the model), and the text [JSON.stringify(_, null,
    2)] produces for an array of cookies. *)
Record World := {
  PUPPETEER_EXECUTABLE_PATH : option string;
  WEBHOOK_URL : option string;
  settle : Call -> Settle;
  responses : list (list Cookie);
  JSON_stringify : list Cookie -> string
}.

(** The errors the code can see.  All are JavaScript [Error] objects; they
    are told apart here by where they were raised. *)
Inductive Error :=
| NoConnectionMethod
    (* new Error("Set either PUPPETEER_EXECUTABLE_PATH or WEBHOOK_URL
       environment variable") *)
| Failed (c : Call).
    (* the rejection of the external call [c] *)

(** The handle [getBrowser] returns, with the way it was obtained. *)
Inductive Browser :=
| Connected (endpoint : string)
| Launched (executable : string).

(** ** Machine state and the monad *)

(** [calls]: the external calls made so far, oldest first.  [files]: the
    file system, path to contents.  [cookies]: the [let cookies] binding
    of [getCookies], which the response listener assigns.  [listening]:
    whether the response listener is registered on the page. *)
Record State := {
  calls : list Call;
  files : gmap string string;
  cookies : list Cookie;
  listening : bool
}.

Definition initial (fs : gmap string string) : State :=
  {| calls := []; files := fs; cookies := []; listening := false |}.

(** How a piece of code ends: normally with a value, by throwing, or not
    at all (suspended on a promise that never settles). *)
Inductive Completion (A : Type) :=
| Normal (a : A)
| Throw (e : Error)
| Pending.
Arguments Normal {A} a.
Arguments Throw {A} e.
Arguments Pending {A}.

Definition M (A : Type) : Type := State -> Completion A * State.

Definition ret {A} (a : A) : M A := fun s => (Normal a, s).

Definition throw {A} (e : Error) : M A := fun s => (Throw e, s).

Definition bind {A B} (m : M A) (k : A -> M B) : M B :=
  fun s =>
    match m s with
    | (Normal a, s') => k a s'
    | (Throw e, s') => (Throw e, s')
    | (Pending, s') => (Pending, s')
    end.

Notation "'let*' x ':=' c 'in' k" := (bind c (fun x => k))
  (at level 10, x name, c at level 100, k at level 200).
Notation "c ';;' k" := (bind c (fun _ => k))
  (at level 100, k at level 200, right associativity).

(** [try { body } catch (error) { handler error }] *)
Definition try_catch {A} (body : M A) (handler : Error -> M A) : M A :=
  fun s =>
    match body s with
    | (Throw e, s') => handler e s'
    | done => done
    end.

(** [try { body } finally { cleanup }]: the cleanup runs however the body
    completes, and then the body's completion stands unless the cleanup
    itself throws or is suspended.  A body that is suspended for ever
    never reaches the cleanup. *)
Definition try_finally {A} (body : M A) (cleanup : M unit) : M A :=
  fun s =>
    match body s with
    | (Pending, s') => (Pending, s')
    | (done, s') =>
        match cleanup s' with
        | (Normal _, s'') => (done, s'')
        | (Throw e, s'') => (Throw e, s'')
        | (Pending, s'') => (Pending, s'')
        end
    end.

Definition log (c : Call) (s : State) : State :=
  {| calls := calls s ++ [c]; files := files s;
     cookies := cookies s; listening := listening s |}.

Definition set_cookies (cs : list Cookie) : M unit :=
  fun s => (Normal tt,
            {| calls := calls s; files := files s;
               cookies := cs; listening := listening s |}).

Definition get_cookies : M (list Cookie) :=
  fun s => (Normal (cookies s), s).

Definition set_listening : M unit :=
  fun s => (Normal tt,
            {| calls := calls s; files := files s;
               cookies := cookies s; listening := true |}).

Definition store (file data : string) : M unit :=
  fun s => (Normal tt,
            {| calls := calls s; files := <[file := data]> (files s);
               cookies := cookies s; listening := listening s |}).

Section Code.

Variable W : World.

(** ** The collaborators *)

(** An external call: logged, then settled by the world. *)
Definition external (c : Call) : M unit :=
  fun s =>
    match settle W c with
    | Fulfils => (Normal tt, log c s)
    | Rejects => (Throw (Failed c), log c s)
    | NeverSettles => (Pending, log c s)
    end.

(** [console.error(message, error)] prints and does not throw. *)
Definition consoleError (message : string) : M unit :=
  fun s => (Normal tt, log (console_error message) s).

(** [puppeteer.connect({ browserWSEndpoint })] *)
Definition connect (endpoint : string) : M Browser :=
  external (puppeteer_connect endpoint) ;; ret (Connected endpoint).

(** [puppeteer.launch({ executablePath, headless })] *)
Definition launch (executable : string) (headless : bool) : M Browser :=
  external (puppeteer_launch executable headless) ;; ret (Launched executable).

(** [browser.setCookie(...cookies)] *)
Definition setCookie (cs : list Cookie) : M unit :=
  external (browser_setCookie cs).

(** [fs.writeFileSync(file, data)]: on success the file holds [data],
    replacing what it held. *)
Definition writeFileSync (file data : string) : M unit :=
  external (fs_writeFileSync file data) ;; store file data.

(** [browser.cookies()] for one response event, yielding [snapshot]. *)
Definition readCookies (snapshot : list Cookie) : M (list Cookie) :=
  fun s => (Normal snapshot, log browser_cookies s).

(** The listener of [getCookies]:
    [async (response) => { cookies = await browser.cookies(); }] *)
Definition on_response (snapshot : list Cookie) : M unit :=
  let* fresh := readCookies snapshot in
  set_cookies fresh.

(** [page.on('response', listener)] *)
Definition page_on : M unit :=
  fun s => set_listening (log page_on_response s).

(** Delivery of response events to the registered listener. *)
Fixpoint deliver (events : list (list Cookie)) : M unit :=
  match events with
  | [] => ret tt
  | snapshot :: rest => on_response snapshot ;; deliver rest
  end.

(** [page.waitForFunction(() => false, { timeout: 0 })]: while the
    caller is suspended the page delivers its response events to the
    listener, if one is registered; then the wait settles. *)
Definition waitForFunction : M unit :=
  fun s =>
    let s1 := log page_waitForFunction s in
    let s2 := if listening s1 then snd (deliver (responses W) s1) else s1 in
    match settle W page_waitForFunction with
    | Fulfils => (Normal tt, s2)
    | Rejects => (Throw (Failed page_waitForFunction), s2)
    | NeverSettles => (Pending, s2)
    end.

(** ** [getBrowser] (index.js, lines 32-90) *)

Definition getBrowser (connectionData : ConnectionData)
    (cookies : list Cookie) : M Browser :=
  let binaryPath := PUPPETEER_EXECUTABLE_PATH W in
  let webhookUrl := WEBHOOK_URL W in
  let executablePath := Js.or (executablePath connectionData) binaryPath in
  let browserWSEndpoint := Js.or (browserWSEndpoint connectionData) webhookUrl in
  let* browser :=
    match Js.if_truthy browserWSEndpoint with
    | Some browserWSEndpoint =>
        try_catch (connect browserWSEndpoint)
          (fun error =>
             consoleError "Error connecting to webhook URL" ;;
             throw error)
    | None =>
        match Js.if_truthy executablePath with
        | Some executablePath =>
            try_catch (launch executablePath false)
              (fun error =>
                 consoleError "Error launching browser, check if the binary path is correct and is compatible with the package" ;;
                 throw error)
        | None => throw NoConnectionMethod
        end
    end in
  (if (0 <? List.length cookies)%nat then setCookie cookies else ret tt) ;;
  ret browser.

(** ** [getCookies] (index.js, lines 146-210)

    The result is [Some cookies] for [return cookies] and [None] for
    falling off the end of the function ([undefined]). *)

Definition getCookies (url : string) (connectionData : ConnectionData)
    (cookieSavePath : string) (defaultCookies : list Cookie)
    : M (option (list Cookie)) :=
  let browserWSEndpoint :=
    Js.or (browserWSEndpoint connectionData) (WEBHOOK_URL W) in
  let isConnectedBrowser := Js.truthy browserWSEndpoint in
  let* browser := getBrowser connectionData defaultCookies in
  let* page := external browser_newPage in
  set_cookies [] ;;
  external (page_goto url) ;;
  page_on ;;
  try_finally
    (try_catch
       (waitForFunction ;; ret None)
       (fun error =>
          (if Js.nonempty cookieSavePath then
             let* cookies := get_cookies in
             writeFileSync cookieSavePath (JSON_stringify W cookies)
           else ret tt) ;;
          let* cookies := get_cookies in
          ret (Some cookies)))
    (try_catch
       (if isConnectedBrowser then external browser_disconnect
        else external browser_close)
       (fun error => consoleError "Error closing browser")).

End Code.

(** ** A reference [JSON.stringify] and [JSON.parse] on cookie arrays

    [JSON.stringify(cookies, null, 2)] belongs to the JavaScript runtime,
    not to the package, so a [World] carries it as a function.  This
    module gives one concrete choice for the worlds of the examples: the
    two-space indented text of an array of cookie objects, and a reader
    for such text.  Strings are sequences of bytes; numbers are integers. *)

Module Json.

Definition newline : ascii := ascii_of_nat 10.
Definition quote : ascii := ascii_of_nat 34.
Definition backslash : ascii := ascii_of_nat 92.

Definition hex_digit (n : nat) : ascii :=
  ascii_of_nat (if (n <? 10)%nat then 48 + n else 87 + n).

(** The escape of one character inside a string literal. *)
Definition escape (c : ascii) : string :=
  let n := nat_of_ascii c in
  if (n =? 34)%nat then String backslash (String quote EmptyString)
  else if (n =? 92)%nat then String backslash (String backslash EmptyString)
  else if (n =? 8)%nat then String backslash "b"
  else if (n =? 9)%nat then String backslash "t"
  else if (n =? 10)%nat then String backslash "n"
  else if (n =? 12)%nat then String backslash "f"
  else if (n =? 13)%nat then String backslash "r"
  else if (n <? 32)%nat then
    String backslash
      (String "u" (String "0" (String "0"
         (String (hex_digit (n / 16)) (String (hex_digit (n mod 16)) EmptyString)))))
  else String c EmptyString.

Fixpoint escaped (s : string) : string :=
  match s with
  | EmptyString => EmptyString
  | String c rest => String.app (escape c) (escaped rest)
  end.

Definition literal (s : string) : string :=
  String quote (String.app (escaped s) (String quote EmptyString)).

Definition number (z : Z) : string := NilZero.string_of_int (Z.to_int z).

Definition boolean (b : bool) : string := if b then "true" else "false".

Definition sameSite_name (v : SameSite) : string :=
  match v with Strict => "Strict" | Lax => "Lax" | NoRestriction => "None" end.

(** The properties of a cookie object in order; an [undefined] property
    is left out. *)
Definition properties (c : Cookie) : list (string * string) :=
  [("name", literal (name c)); ("value", literal (value c));
   ("domain", literal (domain c)); ("path", literal (path c))]
  ++ from_option (fun z => [("expires", number z)]) [] (expires c)
  ++ from_option (fun b => [("httpOnly", boolean b)]) [] (httpOnly c)
  ++ from_option (fun b => [("secure", boolean b)]) [] (secure c)
  ++ from_option (fun v => [("sameSite", literal (sameSite_name v))]) []
       (sameSite c).

Definition lines (sep : string) (items : list string) : string :=
  String.concat sep items.

Definition property (p : string * string) : string :=
  String.app "    " (String.app (literal (fst p)) (String.app ": " (snd p))).

Definition object (c : Cookie) : string :=
  String.app "  {"
    (String.app (String newline EmptyString)
       (String.app
          (lines (String "," (String newline EmptyString)) (map property (properties c)))
          (String.app (String newline EmptyString) "  }"))).

(** [JSON.stringify(cookies, null, 2)] *)
Definition stringify (cookies : list Cookie) : string :=
  match cookies with
  | [] => "[]"
  | _ =>
      String.app "["
        (String.app (String newline EmptyString)
           (String.app
              (lines (String "," (String newline EmptyString)) (map object cookies))
              (String.app (String newline EmptyString) "]")))
  end.

(** *** Reading *)

Inductive token :=
| LBracket | RBracket | LBrace | RBrace | Colon | Comma
| Str (s : string)
| Num (z : Z)
| Word (w : string).

Inductive mode :=
| Idle
| InString (seen : list ascii)
| Escaped (seen : list ascii)
| InUnicode (seen : list ascii) (digits : list ascii)
| InNumber (seen : list ascii)
| InWord (seen : list ascii).

Definition text_of (seen : list ascii) : string :=
  String.string_of_list_ascii (rev seen).

Definition is_space (c : ascii) : bool :=
  let n := nat_of_ascii c in
  (n =? 32)%nat || (n =? 10)%nat || (n =? 13)%nat || (n =? 9)%nat.

Definition is_digit (c : ascii) : bool :=
  let n := nat_of_ascii c in (48 <=? n)%nat && (n <=? 57)%nat.

Definition is_letter (c : ascii) : bool :=
  let n := nat_of_ascii c in (97 <=? n)%nat && (n <=? 122)%nat.

Definition punctuation (c : ascii) : option token :=
  let n := nat_of_ascii c in
  if (n =? 91)%nat then Some LBracket
  else if (n =? 93)%nat then Some RBracket
  else if (n =? 123)%nat then Some LBrace
  else if (n =? 125)%nat then Some RBrace
  else if (n =? 58)%nat then Some Colon
  else if (n =? 44)%nat then Some Comma
  else None.

Definition hex_value (c : ascii) : option nat :=
  let n := nat_of_ascii c in
  if (48 <=? n)%nat && (n <=? 57)%nat then Some (n - 48)
  else if (97 <=? n)%nat && (n <=? 102)%nat then Some (n - 87)
  else if (65 <=? n)%nat && (n <=? 70)%nat then Some (n - 55)
  else None.

Definition unicode (digits : list ascii) : option ascii :=
  match digits with
  | [a; b; c; d] =>
      match hex_value a, hex_value b, hex_value c, hex_value d with
      | Some 0, Some 0, Some h, Some l => Some (ascii_of_nat (16 * h + l))
      | _, _, _, _ => None
      end
  | _ => None
  end.

Definition unescape (c : ascii) : option ascii :=
  let n := nat_of_ascii c in
  if (n =? 34)%nat || (n =? 92)%nat || (n =? 47)%nat then Some c
  else if (n =? 98)%nat then Some (ascii_of_nat 8)
  else if (n =? 116)%nat then Some (ascii_of_nat 9)
  else if (n =? 110)%nat then Some (ascii_of_nat 10)
  else if (n =? 102)%nat then Some (ascii_of_nat 12)
  else if (n =? 114)%nat then Some (ascii_of_nat 13)
  else None.

Definition read_number (seen : list ascii) : option token :=
  option_map (fun d => Num (Z.of_int d)) (NilZero.int_of_string (text_of seen)).

(** What ends a number or a word: white space or a punctuation mark. *)
Definition after (t : option token) (c : ascii)
    (rest : option (list token)) : option (list token) :=
  match t, rest with
  | Some t, Some ts =>
      if is_space c then Some (t :: ts)
      else option_map (fun p => t :: p :: ts) (punctuation c)
  | _, _ => None
  end.

Fixpoint lex (m : mode) (text : string) : option (list token) :=
  match text with
  | EmptyString =>
      match m with
      | Idle => Some []
      | InNumber seen => option_map (fun t => [t]) (read_number seen)
      | InWord seen => Some [Word (text_of seen)]
      | _ => None
      end
  | String c rest =>
      match m with
      | Idle =>
          if is_space c then lex Idle rest
          else if (nat_of_ascii c =? 34)%nat then lex (InString []) rest
          else if is_digit c || (nat_of_ascii c =? 45)%nat
               then lex (InNumber [c]) rest
          else if is_letter c then lex (InWord [c]) rest
          else match punctuation c, lex Idle rest with
               | Some p, Some ts => Some (p :: ts)
               | _, _ => None
               end
      | InString seen =>
          if (nat_of_ascii c =? 34)%nat
          then option_map (cons (Str (text_of seen))) (lex Idle rest)
          else if (nat_of_ascii c =? 92)%nat then lex (Escaped seen) rest
          else lex (InString (c :: seen)) rest
      | Escaped seen =>
          if (nat_of_ascii c =? 117)%nat then lex (InUnicode seen []) rest
          else match unescape c with
               | Some a => lex (InString (a :: seen)) rest
               | None => None
               end
      | InUnicode seen digits =>
          match digits with
          | [_; _; _] =>
              match unicode (digits ++ [c]) with
              | Some a => lex (InString (a :: seen)) rest
              | None => None
              end
          | _ => lex (InUnicode seen (digits ++ [c])) rest
          end
      | InNumber seen =>
          if is_digit c then lex (InNumber (c :: seen)) rest
          else after (read_number seen) c (lex Idle rest)
      | InWord seen =>
          if is_letter c then lex (InWord (c :: seen)) rest
          else after (Some (Word (text_of seen))) c (lex Idle rest)
      end
  end.

(** Where the reader stands in an array of objects of scalars. *)
Inductive place :=
| AtStart
| InArray
| AfterComma
| AtKey (fields : list (string * token))
| AtColon (fields : list (string * token)) (key : string)
| AtValue (fields : list (string * token)) (key : string)
| AfterValue (fields : list (string * token))
| AfterObject
| AtEnd.

Definition is_scalar (t : token) : bool :=
  match t with Str _ | Num _ | Word _ => true | _ => false end.

Fixpoint objects (p : place) (done : list (list (string * token)))
    (ts : list token) : option (list (list (string * token))) :=
  match ts with
  | [] => match p with AtEnd => Some (rev done) | _ => None end
  | t :: rest =>
      match p, t with
      | AtStart, LBracket => objects InArray done rest
      | InArray, RBracket => objects AtEnd done rest
      | InArray, LBrace => objects (AtKey []) done rest
      | AfterComma, LBrace => objects (AtKey []) done rest
      | AtKey fields, Str key => objects (AtColon fields key) done rest
      | AtColon fields key, Colon => objects (AtValue fields key) done rest
      | AtValue fields key, _ =>
          if is_scalar t then objects (AfterValue ((key, t) :: fields)) done rest
          else None
      | AfterValue fields, Comma => objects (AtKey fields) done rest
      | AfterValue fields, RBrace => objects AfterObject (rev fields :: done) rest
      | AfterObject, Comma => objects AfterComma done rest
      | AfterObject, RBracket => objects AtEnd done rest
      | _, _ => None
      end
  end.

Fixpoint field (key : string) (fields : list (string * token)) : option token :=
  match fields with
  | [] => None
  | (k, t) :: rest => if String.eqb k key then Some t else field key rest
  end.

Definition as_string (t : option token) : option string :=
  match t with Some (Str s) => Some s | _ => None end.

Definition as_number (t : option token) : option Z :=
  match t with Some (Num z) => Some z | _ => None end.

Definition as_boolean (t : option token) : option bool :=
  match t with
  | Some (Word w) =>
      if String.eqb w "true" then Some true
      else if String.eqb w "false" then Some false else None
  | _ => None
  end.

Definition as_sameSite (t : option token) : option SameSite :=
  match t with
  | Some (Str s) =>
      if String.eqb s "Strict" then Some Strict
      else if String.eqb s "Lax" then Some Lax
      else if String.eqb s "None" then Some NoRestriction else None
  | _ => None
  end.

Definition cookie_of (fields : list (string * token)) : option Cookie :=
  match as_string (field "name" fields), as_string (field "value" fields),
        as_string (field "domain" fields), as_string (field "path" fields) with
  | Some n, Some v, Some d, Some p =>
      Some {| name := n; value := v; domain := d; path := p;
              expires := as_number (field "expires" fields);
              httpOnly := as_boolean (field "httpOnly" fields);
              secure := as_boolean (field "secure" fields);
              sameSite := as_sameSite (field "sameSite" fields) |}
  | _, _, _, _ => None
  end.

Fixpoint all_cookies (l : list (list (string * token))) : option (list Cookie) :=
  match l with
  | [] => Some []
  | fields :: rest =>
      match cookie_of fields, all_cookies rest with
      | Some c, Some cs => Some (c :: cs)
      | _, _ => None
      end
  end.

(** [JSON.parse(text)], read as an array of cookies. *)
Definition parse (text : string) : option (list Cookie) :=
  match lex Idle text with
  | Some ts =>
      match objects AtStart [] ts with
      | Some l => all_cookies l
      | None => None
      end
  | None => None
  end.

End Json.

(** ** Example worlds *)

Definition session_cookie : Cookie :=
  {| name := "session"; value := "abc123"; domain := ".example.com";
     path := "/"; expires := Some 1234567890%Z; httpOnly := Some false;
     secure := Some true; sameSite := Some Lax |}.

Definition initial_cookie : Cookie :=
  {| name := "initial"; value := "test123"; domain := ".httpbin.org";
     path := "/"; expires := None; httpOnly := None; secure := None;
     sameSite := None |}.

Definition example_url : string := "https://example.com".

Definition chrome : string := "/usr/bin/google-chrome".

Definition endpoint : string :=
  "ws://127.0.0.1:9222/devtools/browser/878b5668-eb0f-4772-a51c-db428d6bdd8b".

Definition local_chrome : ConnectionData :=
  {| executablePath := Some chrome; browserWSEndpoint := None |}.

Definition remote_browser : ConnectionData :=
  {| executablePath := None; browserWSEndpoint := Some endpoint |}.

Definition both_supplied : ConnectionData :=
  {| executablePath := Some chrome; browserWSEndpoint := Some endpoint |}.

(** Every call succeeds and the operator closes the browser in the end:
    the indefinite wait is rejected. *)
Definition closing (c : Call) : Settle :=
  match c with
  | page_waitForFunction => Rejects
  | _ => Fulfils
  end.

Definition navigation_fails (c : Call) : Settle :=
  match c with
  | page_goto _ => Rejects
  | _ => closing c
  end.

Definition write_fails (c : Call) : Settle :=
  match c with
  | fs_writeFileSync _ _ => Rejects
  | _ => closing c
  end.

Definition seeding_fails (c : Call) : Settle :=
  match c with
  | browser_setCookie _ => Rejects
  | _ => closing c
  end.

(** A world without environment defaults in which two response events
    are observed before the browser is closed. *)
Definition world (how : Call -> Settle) : World :=
  {| PUPPETEER_EXECUTABLE_PATH := None;
     WEBHOOK_URL := None;
     settle := how;
     responses := [[session_cookie]; [session_cookie; initial_cookie]];
     JSON_stringify := Json.stringify |}.

(** A world in which both environment defaults are set. *)
Definition world_with_env (how : Call -> Settle) : World :=
  {| PUPPETEER_EXECUTABLE_PATH := Some chrome;
     WEBHOOK_URL := Some endpoint;
     settle := how;
     responses := [];
     JSON_stringify := Json.stringify |}.

Definition no_files : gmap string string := ∅.

Definition out_json : string := "./out.json".

(** Local browser, navigation fails. *)
Definition navigation_failure_run : Completion (option (list Cookie)) * State :=
  getCookies (world navigation_fails) example_url local_chrome out_json []
    (initial no_files).

(** Remote browser, the write of the cookie file fails at closure. *)
Definition write_failure_run : Completion (option (list Cookie)) * State :=
  getCookies (world write_fails) example_url remote_browser out_json []
    (initial no_files).

(** Remote browser, the initial cookies are refused. *)
Definition seeding_failure_run : Completion (option (list Cookie)) * State :=
  getCookies (world seeding_fails) example_url remote_browser EmptyString
    [initial_cookie] (initial no_files).

(** ** Reading the call log *)

Definition is_attach (c : Call) : bool :=
  match c with puppeteer_connect _ => true | _ => false end.

Definition is_launch (c : Call) : bool :=
  match c with puppeteer_launch _ _ => true | _ => false end.

Definition is_seeding (c : Call) : bool :=
  match c with browser_setCookie _ => true | _ => false end.

Definition is_release (c : Call) : bool :=
  match c with browser_disconnect | browser_close => true | _ => false end.

Definition is_write (c : Call) : bool :=
  match c with fs_writeFileSync _ _ => true | _ => false end.

Definition is_wait (c : Call) : bool :=
  match c with page_waitForFunction => true | _ => false end.

(** The calls [getBrowser] makes: acquisition, seeding, console. *)
Definition is_acquisition (c : Call) : bool :=
  match c with
  | puppeteer_connect _ | puppeteer_launch _ _
  | browser_setCookie _ | console_error _ => true
  | _ => false
  end.

(** The calls [getCookies] makes on the page it opens. *)
Definition is_page (c : Call) : bool :=
  match c with
  | browser_newPage | page_goto _ | page_on_response
  | page_waitForFunction | browser_cookies => true
  | _ => false
  end.

(** The calls [getCookies] makes itself, after [getBrowser] returned. *)
Definition is_session (c : Call) : bool :=
  match c with
  | puppeteer_connect _ | puppeteer_launch _ _ | browser_setCookie _ => false
  | _ => true
  end.

(** An attach or a launch names a non-empty target. *)
Definition has_target (c : Call) : bool :=
  match c with
  | puppeteer_connect e => Js.nonempty e
  | puppeteer_launch p _ => Js.nonempty p
  | _ => true
  end.

(** The release the cleanup block of [getCookies] chooses. *)
Definition release_of (remote : bool) : Call :=
  if remote then browser_disconnect else browser_close.

(** The remote-mode decision of [getCookies], lines 152-153. *)
Definition isConnectedBrowser (W : World) (connectionData : ConnectionData) : bool :=
  Js.truthy (Js.or (browserWSEndpoint connectionData) (WEBHOOK_URL W)).

(** An invocation reaches the closure step: a handle is acquired, the
    page opens, navigation succeeds, and the indefinite wait is ended by
    its rejection, which is how the closing of the browser shows. *)
Definition reaches_closure (W : World) (fs : gmap string string)
    (url : string) (connectionData : ConnectionData)
    (defaultCookies : list Cookie) : Prop :=
  (exists browser s, getBrowser W connectionData defaultCookies (initial fs)
                     = (Normal browser, s)) /\
  settle W browser_newPage = Fulfils /\
  settle W (page_goto url) = Fulfils /\
  settle W page_waitForFunction = Rejects.

(** The snapshot of the last response event observed, or the empty
    array when there was none. *)
Definition last_snapshot (W : World) : list Cookie :=
  default [] (last (responses W)).

(** Writing to [cookieSavePath], when one is given, succeeds. *)
Definition persist_succeeds (W : World) (cookieSavePath : string) : Prop :=
  Js.nonempty cookieSavePath = true ->
  forall data, settle W (fs_writeFileSync cookieSavePath data) = Fulfils.

(** The release of the handle settles, one way or the other. *)
Definition release_settles (W : World) (connectionData : ConnectionData) : Prop :=
  settle W (release_of (isConnectedBrowser W connectionData)) <> NeverSettles.

(** ** The course of a session *)

(** The calls of a session in the order the code makes them, for a wait
    that ends as the world says: the page is opened, navigated and
    listened to; during the wait one [browser.cookies()] per response
    event; the write, when the wait was rejected and a path is given; the
    release; the report of a failed release. *)
Definition session_script (W : World) (url : string)
    (connectionData : ConnectionData) (cookieSavePath : string) : list Call :=
  [browser_newPage; page_goto url; page_on_response; page_waitForFunction]
  ++ replicate (length (responses W)) browser_cookies
  ++ match settle W page_waitForFunction with
     | Rejects =>
         if Js.nonempty cookieSavePath
         then [fs_writeFileSync cookieSavePath
                 (JSON_stringify W (last_snapshot W))]
         else []
     | _ => []
     end
  ++ [release_of (isConnectedBrowser W connectionData);
      console_error "Error closing browser"].

(** ** The scripts that call [getCookies]

    The test script ([src/test/test.js]) and the usage example each call
    [getCookies] inside a [try] and print to the console.  A script is
    run on what it has printed so far and on the machine state.  It
    returns; or it raises an error, of which the scripts read the
    [message] only; or it calls [process.exit]; or it stays at an
    invocation of [getCookies] that does not complete.  What becomes of
    the process in the last case is not told: it may wait for ever, or
    Node may end it, as it does when a read of the response listener is
    rejected with nobody to catch it.  Such a read yields no snapshot
    and is not among the events of a world. *)

Inductive Line :=
| log_line (text : string)       (* console.log *)
| error_line (text : string).    (* console.error *)

Inductive Ending (A : Type) :=
| Returns (a : A)
| Raises (message : string)
| Exits (code : nat)      (* the script called process.exit(code) *)
| Hangs.                  (* an awaited invocation does not complete *)
Arguments Returns {A} a.
Arguments Raises {A} message.
Arguments Exits {A} code.
Arguments Hangs {A}.

Definition Script (A : Type) : Type :=
  list Line * State -> Ending A * (list Line * State).

Definition script_ret {A} (a : A) : Script A := fun st => (Returns a, st).

Definition script_bind {A B} (m : Script A) (k : A -> Script B) : Script B :=
  fun st =>
    match m st with
    | (Returns a, st') => k a st'
    | (Raises message, st') => (Raises message, st')
    | (Exits code, st') => (Exits code, st')
    | (Hangs, st') => (Hangs, st')
    end.

Notation "'let!' x ':=' c 'in' k" := (script_bind c (fun x => k))
  (at level 10, x name, c at level 100, k at level 200).
Notation "c '>>' k" := (script_bind c (fun _ => k))
  (at level 100, k at level 200, right associativity).

(** [try { body } catch (error) { handler error.message }] *)
Definition script_catch {A} (body : Script A) (handler : string -> Script A)
    : Script A :=
  fun st =>
    match body st with
    | (Raises message, st') => handler message st'
    | done => done
    end.

Definition console_log (text : string) : Script unit :=
  fun st => (Returns tt, (fst st ++ [log_line text], snd st)).

Definition console_err (text : string) : Script unit :=
  fun st => (Returns tt, (fst st ++ [error_line text], snd st)).

(** [process.exit(code)] *)
Definition process_exit {A} (code : nat) : Script A :=
  fun st => (Exits code, st).

(** The messages of the errors that do not come from the package: of the
    rejection of each external call, and of the [TypeError] for reading a
    property of [undefined]. *)
Record Messages := {
  of_call : Call -> string;
  of_undefined : string
}.

Definition message (says : Messages) (e : Error) : string :=
  match e with
  | NoConnectionMethod =>
      "Set either PUPPETEER_EXECUTABLE_PATH or WEBHOOK_URL environment variable"
  | Failed c => of_call says c
  end.

(** The state a new invocation of [getCookies] sees: its page has no
    listener yet. *)
Definition new_invocation (s : State) : State :=
  {| calls := calls s; files := files s; cookies := cookies s;
     listening := false |}.

(** [await] of an invocation of [getCookies]. *)
Definition await {A} (says : Messages) (m : M A) : Script A :=
  fun st =>
    match m (new_invocation (snd st)) with
    | (Normal a, s') => (Returns a, (fst st, s'))
    | (Throw e, s') => (Raises (message says e), (fst st, s'))
    | (Pending, s') => (Hangs, (fst st, s'))
    end.

(** The first property read on the result of [getCookies]: a
    [TypeError] when the result is [undefined]. *)
Definition array_of (says : Messages) (result : option (list Cookie))
    : Script (list Cookie) :=
  match result with
  | Some items => script_ret items
  | None => fun st => (Raises (of_undefined says), st)
  end.

(** [text.includes(needle)] *)
Fixpoint includes (needle text : string) : bool :=
  if String.prefix needle text then true
  else match text with
       | EmptyString => false
       | String _ rest => includes needle rest
       end.

(** A number inside a template literal. *)
Definition decimal (n : nat) : string :=
  NilZero.string_of_uint (Nat.to_uint n).

Definition nl : string := String Json.newline EmptyString.

(** [value || "Not set"] *)
Definition or_not_set (v : option string) : string :=
  match Js.if_truthy v with
  | Some text => text
  | None => "Not set"
  end.

(** [items.forEach((item, index) => body)] *)
Fixpoint forEach {A} (body : A -> nat -> Script unit) (items : list A)
    (index : nat) : Script unit :=
  match items with
  | [] => script_ret tt
  | item :: rest => body item index >> forEach body rest (S index)
  end.

Definition empty_object : ConnectionData :=
  {| executablePath := None; browserWSEndpoint := None |}.

Definition test_cookies_json : string := "test-cookies.json".

(** *** [runTest] (test.js, lines 13-57), after [dotenv.config()] has
    filled [process.env] *)

Definition runTest (W : World) (says : Messages) : Script unit :=
  console_log (String.app "🧪 Testing get-cookies-puppeteer package..." nl) >>
  console_log "📋 Environment Configuration:" >>
  console_log (String.app "PUPPETEER_EXECUTABLE_PATH: "
                 (or_not_set (PUPPETEER_EXECUTABLE_PATH W))) >>
  console_log (String.app "WEBHOOK_URL: " (or_not_set (WEBHOOK_URL W))) >>
  console_log EmptyString >>
  let testUrl := "https://httpbin.org/cookies/set/test/value" in
  script_catch
    (console_log (String.app "🌐 Testing cookie extraction from: " testUrl) >>
     console_log "⏳ Opening browser... (close the browser window when done)" >>
     let! cookies :=
       await says (getCookies W testUrl empty_object test_cookies_json []) in
     console_log "✅ Test completed successfully!" >>
     let! cookies := array_of says cookies in
     console_log (String.app "📊 Extracted "
                    (String.app (decimal (length cookies)) " cookies:")) >>
     (if (0 <? length cookies)%nat then
        forEach
          (fun cookie index =>
             console_log
               (String.concat EmptyString
                  ["   "; decimal (index + 1); ". "; name cookie; " = ";
                   value cookie; " (domain: "; domain cookie; ")"]))
          cookies 0
      else console_log "   No cookies found") >>
     console_log "💾 Cookies saved to test-cookies.json")
    (fun error_message =>
       console_err (String.app "❌ Test failed: " error_message) >>
       (if includes "PUPPETEER_EXECUTABLE_PATH" error_message then
          console_log (String.app nl "💡 Tip: Set the PUPPETEER_EXECUTABLE_PATH environment variable or pass executablePath in connectionData") >>
          console_log "Example paths:" >>
          console_log "  macOS: /Applications/Google Chrome.app/Contents/MacOS/Google Chrome" >>
          console_log "  Linux: /usr/bin/google-chrome" >>
          console_log "  Windows: C:\Program Files\Google\Chrome\Application\chrome.exe"
        else script_ret tt) >>
       process_exit 1).

(** *** [basicExample] (the usage example, lines 7-58)

    The four invocations share the environment and the runtime of [W];
    how the browser behaves is told for each of them apart. *)

Record Engine := {
  engine_settle : Call -> Settle;
  engine_responses : list (list Cookie)
}.

Definition with_engine (W : World) (E : Engine) : World :=
  {| PUPPETEER_EXECUTABLE_PATH := PUPPETEER_EXECUTABLE_PATH W;
     WEBHOOK_URL := WEBHOOK_URL W;
     settle := engine_settle E;
     responses := engine_responses E;
     JSON_stringify := JSON_stringify W |}.

Definition mac_chrome : string :=
  "/Applications/Google Chrome.app/Contents/MacOS/Google Chrome".

Definition extracted_cookies_json : string := "./extracted-cookies.json".

Definition basicExample (W : World) (says : Messages)
    (E1 E2 E3 E4 : Engine) : Script unit :=
  console_log (String.app "🍪 Basic Cookie Extraction Example" nl) >>
  script_catch
    (console_log "Example 1: Local Chrome browser" >>
     let! cookies1 :=
       await says
         (getCookies (with_engine W E1)
            "https://httpbin.org/cookies/set/example/value"
            {| executablePath := Some mac_chrome; browserWSEndpoint := None |}
            EmptyString []) in
     let! cookies1 := array_of says cookies1 in
     console_log (String.concat EmptyString
                    ["Extracted "; decimal (length cookies1); " cookies"; nl]) >>
     console_log "Example 2: Using environment variables (set PUPPETEER_EXECUTABLE_PATH)" >>
     let! cookies2 :=
       await says
         (getCookies (with_engine W E2)
            "https://httpbin.org/cookies/set/env/example"
            no_connectionData EmptyString []) in
     let! cookies2 := array_of says cookies2 in
     console_log (String.concat EmptyString
                    ["Extracted "; decimal (length cookies2); " cookies"; nl]) >>
     console_log "Example 3: Save cookies to file" >>
     let! cookies3 :=
       await says
         (getCookies (with_engine W E3)
            "https://httpbin.org/cookies/set/saved/cookie"
            empty_object extracted_cookies_json []) in
     let! cookies3 := array_of says cookies3 in
     console_log (String.concat EmptyString
                    ["Extracted "; decimal (length cookies3);
                     " cookies and saved to file"; nl]) >>
     console_log "Example 4: Setting initial cookies" >>
     let initialCookies := [initial_cookie] in
     let! cookies4 :=
       await says
         (getCookies (with_engine W E4) "https://httpbin.org/cookies"
            empty_object EmptyString initialCookies) in
     let! cookies4 := array_of says cookies4 in
     console_log (String.concat EmptyString
                    ["Extracted "; decimal (length cookies4);
                     " cookies with initial cookies set"; nl]))
    (fun error_message =>
       console_err (String.app "Error: " error_message) >>
       console_log (String.app nl "💡 Make sure to:") >>
       console_log "1. Install Chrome or Chromium browser" >>
       console_log "2. Set PUPPETEER_EXECUTABLE_PATH environment variable, or" >>
       console_log "3. Pass executablePath in connectionData parameter").

(** A run of a script from a clean console. *)
Definition start (fs : gmap string string) : list Line * State :=
  ([], initial fs).

Definition silent : Messages :=
  {| of_call := fun _ => "Protocol error";
     of_undefined := "Cannot read properties of undefined (reading 'length')" |}.

(** A script keeps a property of the machine state. *)
Definition keeps {A} (I : State -> Prop) (m : Script A) : Prop :=
  forall st, I (snd st) -> I (snd (snd (m st))).

(** The argument of [runTest]'s invocation of [getCookies]. *)
Definition test_url : string := "https://httpbin.org/cookies/set/test/value".

(** *** Worlds for the scripts and the failures *)

Definition other_endpoint : string := "ws://browserless.example:3000".

Definition attach_fails (c : Call) : Settle :=
  match c with
  | puppeteer_connect _ => Rejects
  | _ => closing c
  end.

Definition launch_fails (c : Call) : Settle :=
  match c with
  | puppeteer_launch _ _ => Rejects
  | _ => closing c
  end.

Definition page_fails (c : Call) : Settle :=
  match c with
  | browser_newPage => Rejects
  | _ => closing c
  end.

Definition release_fails (c : Call) : Settle :=
  match c with
  | browser_disconnect | browser_close => Rejects
  | _ => closing c
  end.

(** The operator never closes the browser. *)
Definition never_closed (c : Call) : Settle :=
  match c with
  | page_waitForFunction => NeverSettles
  | _ => Fulfils
  end.

Definition closing_engine : Engine :=
  {| engine_settle := closing; engine_responses := [[session_cookie]] |}.

(** ** Lemmas on the monad and the collaborators *)

Lemma default_last_cons {A} (d x : A) (l : list A) :
  default d (last (x :: l)) = default x (last l).
Proof.
  revert d x. induction l as [|y l IH]; intros d x; [done|].
  by rewrite last_cons_cons, (IH d y), (IH x y).
Qed.

Lemma deliver_spec (events : list (list Cookie)) (s : State) :
  deliver events s =
    (Normal tt,
     {| calls := calls s ++ replicate (length events) browser_cookies;
        files := files s;
        cookies := default (cookies s) (last events);
        listening := listening s |}).
Proof.
  revert s. induction events as [|snapshot rest IH]; intros s.
  - simpl. rewrite app_nil_r. by destruct s.
  - cbn [deliver]. unfold bind, on_response, readCookies, set_cookies, bind.
    rewrite IH. cbn. rewrite <- app_assoc. cbn.
    by rewrite default_last_cons.
Qed.

(** Unfolding of the monad and of the collaborators. *)
Ltac unfold_code :=
  unfold connect, launch, setCookie, writeFileSync, waitForFunction,
    page_on, consoleError, external, try_finally, try_catch, bind, ret,
    throw, get_cookies, set_cookies, set_listening, store.

(** Case analysis on how the next external call settles. *)
Ltac settle_case :=
  match goal with
  | H : settle ?W ?c = _ |- context [settle ?W ?c] => rewrite H
  | |- context [settle ?W ?c] => destruct (settle W c) eqn:?
  end.

(** [getBrowser] leaves the files, the [cookies] binding and the listener
    alone, and makes acquisition calls only, each with a target. *)
Lemma getBrowser_frame (W : World) (cd : ConnectionData) (dc : list Cookie)
    (s s' : State) (r : Completion Browser) :
  getBrowser W cd dc s = (r, s') ->
  files s' = files s /\ cookies s' = cookies s /\ listening s' = listening s /\
  exists made, calls s' = calls s ++ made /\
    forallb is_acquisition made = true /\ forallb has_target made = true.
Proof.
  unfold getBrowser; unfold_code.
  destruct (Js.or (browserWSEndpoint cd) (WEBHOOK_URL W)) as [[|c1 e]|];
    cbn [Js.if_truthy];
    try destruct (Js.or (executablePath cd) (PUPPETEER_EXECUTABLE_PATH W))
      as [[|c2 p]|];
    cbn [Js.if_truthy];
    destruct (0 <? length dc)%nat;
    repeat settle_case; cbn; intros [= <- <-]; cbn;
    repeat split; rewrite <- ?app_assoc; cbn;
    try (eexists; split; [reflexivity|split; reflexivity]).
  all: exists []; by rewrite app_nil_r.
Qed.

(** ** The Browser Acquirer *)

Lemma if_truthy_falsy (v : option string) :
  Js.truthy v = false -> Js.if_truthy v = None.
Proof. by destruct v as [[|c t]|]. Qed.

Lemma or_falsy (a b : option string) :
  Js.truthy a = false -> Js.truthy b = false -> Js.truthy (Js.or a b) = false.
Proof. unfold Js.or. by intros -> ->. Qed.

(** C5. Whenever the remote endpoint, [connectionData.browserWSEndpoint ||
    process.env.WEBHOOK_URL], resolves to a non-empty string [e],
    [getBrowser] attempts exactly one attach, at [e], and no launch,
    whatever the executable path resolves to and however the calls
    settle. *)
Theorem remote_takes_priority (W : World) (fs : gmap string string)
    (connectionData : ConnectionData) (cookies : list Cookie) (e : string) :
  Js.or (browserWSEndpoint connectionData) (WEBHOOK_URL W) = Some e ->
  Js.nonempty e = true ->
  let made := calls (snd (getBrowser W connectionData cookies (initial fs))) in
  List.filter is_attach made = [puppeteer_connect e] /\
  List.filter is_launch made = [].
Proof.
  intros He Hne made. subst made.
  unfold getBrowser; unfold_code. rewrite He.
  destruct e as [|c t]; [discriminate|]. cbn [Js.if_truthy].
  destruct (0 <? length cookies)%nat; repeat settle_case; by cbn.
Qed.

(** C9. Whenever no remote endpoint resolves and the executable path,
    [connectionData.executablePath || process.env.PUPPETEER_EXECUTABLE_PATH],
    resolves to a non-empty string [p], [getBrowser] attempts exactly one
    launch, of [p] with [headless: false], and no attach. *)
Theorem local_launch_is_visible (W : World) (fs : gmap string string)
    (connectionData : ConnectionData) (cookies : list Cookie) (p : string) :
  Js.truthy (Js.or (browserWSEndpoint connectionData) (WEBHOOK_URL W)) = false ->
  Js.or (executablePath connectionData) (PUPPETEER_EXECUTABLE_PATH W) = Some p ->
  Js.nonempty p = true ->
  let made := calls (snd (getBrowser W connectionData cookies (initial fs))) in
  List.filter is_launch made = [puppeteer_launch p false] /\
  List.filter is_attach made = [].
Proof.
  intros Hws Hp Hne made. subst made.
  unfold getBrowser; unfold_code.
  rewrite (if_truthy_falsy _ Hws), Hp.
  destruct p as [|c t]; [discriminate|]. cbn [Js.if_truthy].
  destruct (0 <? length cookies)%nat; repeat settle_case; by cbn.
Qed.

(** C6. When neither parameter is a non-empty string and neither
    environment variable is, [getBrowser] throws the configuration error
    without having made any call, and so does [getCookies]. *)
Theorem no_connection_method (W : World) (fs : gmap string string)
    (url : string) (connectionData : ConnectionData)
    (cookieSavePath : string) (cookies : list Cookie) :
  Js.truthy (browserWSEndpoint connectionData) = false ->
  Js.truthy (executablePath connectionData) = false ->
  Js.truthy (WEBHOOK_URL W) = false ->
  Js.truthy (PUPPETEER_EXECUTABLE_PATH W) = false ->
  getBrowser W connectionData cookies (initial fs)
    = (Throw NoConnectionMethod, initial fs) /\
  getCookies W url connectionData cookieSavePath cookies (initial fs)
    = (Throw NoConnectionMethod, initial fs).
Proof.
  intros Hws Hexe Henv_ws Henv_exe.
  assert (getBrowser W connectionData cookies (initial fs)
          = (Throw NoConnectionMethod, initial fs)) as Hb.
  { unfold getBrowser; unfold_code.
    by rewrite (if_truthy_falsy _ (or_falsy _ _ Hws Henv_ws)),
               (if_truthy_falsy _ (or_falsy _ _ Hexe Henv_exe)). }
  split; [done|].
  unfold getCookies. cbv zeta. unfold bind at 1. by rewrite Hb.
Qed.

Lemma forallb_replicate_cookies (P : Call -> bool) (n : nat) :
  P browser_cookies = true -> forallb P (replicate n browser_cookies) = true.
Proof. intros HP. induction n as [|n IH]; cbn; [done|]. by rewrite HP, IH. Qed.

Lemma filter_replicate_cookies (P : Call -> bool) (n : nat) :
  P browser_cookies = false -> List.filter P (replicate n browser_cookies) = [].
Proof. intros HP. induction n as [|n IH]; cbn; [done|]. by rewrite HP. Qed.

(** The calls of [getCookies] are those of [getBrowser] followed by
    calls of the session itself. *)
Lemma getCookies_frame (W : World) (url : string) (cd : ConnectionData)
    (path : string) (dc : list Cookie) (s : State) :
  exists rest,
    calls (snd (getCookies W url cd path dc s))
      = calls (snd (getBrowser W cd dc s)) ++ rest /\
    forallb is_session rest = true.
Proof.
  unfold getCookies. cbv zeta. unfold bind at 1.
  destruct (getBrowser W cd dc s) as [[b| |] s1] eqn:Hb; cbn [snd];
    try (exists []; by rewrite app_nil_r).
  unfold_code.
  settle_case; cbn; [|eexists; split; [reflexivity|done]..].
  settle_case; cbn; rewrite <- ?app_assoc; cbn;
    [|eexists; split; [reflexivity|done]..].
  rewrite deliver_spec; cbn.
  assert (forall l, forallb is_session l = true ->
            forallb is_session
              (replicate (length (responses W)) browser_cookies ++ l) = true)
    as Hrep.
  { intros l Hl. rewrite forallb_app, Hl.
    by rewrite forallb_replicate_cookies. }
  destruct (Js.nonempty path),
    (Js.truthy (Js.or (browserWSEndpoint cd) (WEBHOOK_URL W)));
    repeat (settle_case; cbn); rewrite <- ?app_assoc; cbn;
    (eexists; split; [reflexivity|]); cbn;
    first [by apply Hrep | by apply forallb_replicate_cookies].
Qed.

(** The mode [getCookies] decides on beforehand is the mode in which
    [getBrowser] obtains the handle. *)
Lemma mode_agrees_with_handle (W : World) (cd : ConnectionData)
    (dc : list Cookie) (s s' : State) (b : Browser) :
  getBrowser W cd dc s = (Normal b, s') ->
  isConnectedBrowser W cd
  = match b with Connected _ => true | Launched _ => false end.
Proof.
  unfold isConnectedBrowser, getBrowser; unfold_code.
  destruct (Js.or (browserWSEndpoint cd) (WEBHOOK_URL W)) as [[|c1 e]|];
    cbn [Js.if_truthy Js.truthy];
    try destruct (Js.or (executablePath cd) (PUPPETEER_EXECUTABLE_PATH W))
      as [[|c2 p]|];
    cbn [Js.if_truthy];
    destruct (0 <? length dc)%nat;
    repeat settle_case; cbn; by intros [= <- <-].
Qed.

Lemma session_call_has_target (c : Call) : is_session c = true -> has_target c = true.
Proof. by destruct c. Qed.

(** No attach and no launch of a run of [getCookies] names the empty
    string. *)
Lemma calls_have_target (W : World) (url : string) (cd : ConnectionData)
    (path : string) (dc : list Cookie) (fs : gmap string string) (c : Call) :
  In c (calls (snd (getCookies W url cd path dc (initial fs)))) ->
  has_target c = true.
Proof.
  destruct (getCookies_frame W url cd path dc (initial fs))
    as (rest & -> & Hrest).
  destruct (getBrowser W cd dc (initial fs)) as [r s1] eqn:Hb.
  destruct (getBrowser_frame _ _ _ _ _ _ Hb)
    as (_ & _ & _ & made & Hmade & _ & Htarget).
  cbn [snd]. rewrite Hmade. cbn. intros [Hin|Hin]%in_app_or.
  - by apply (proj1 (forallb_forall _ _) Htarget).
  - apply session_call_has_target.
    by apply (proj1 (forallb_forall _ _) Hrest).
Qed.

Lemma session_calls_no_acquisition (l : list Call) :
  forallb is_session l = true ->
  List.filter is_attach l = [] /\ List.filter is_launch l = [].
Proof.
  induction l as [|c l IH]; [done|]. cbn.
  intros [Hc Hl]%andb_prop. destruct (IH Hl) as [-> ->]. by destruct c.
Qed.

(** A resolved endpoint is what a run attaches to, once, and then nothing
    is launched. *)
Lemma resolved_endpoint_is_attached (W : World) (url : string)
    (cd : ConnectionData) (path : string) (dc : list Cookie)
    (fs : gmap string string) (e : string) :
  Js.or (browserWSEndpoint cd) (WEBHOOK_URL W) = Some e ->
  Js.nonempty e = true ->
  (List.filter is_attach (calls (snd (getBrowser W cd dc (initial fs))))
   = [puppeteer_connect e] /\
   List.filter is_launch (calls (snd (getBrowser W cd dc (initial fs)))) = []) /\
  (List.filter is_attach (calls (snd (getCookies W url cd path dc (initial fs))))
   = [puppeteer_connect e] /\
   List.filter is_launch (calls (snd (getCookies W url cd path dc (initial fs))))
   = []).
Proof.
  intros He Hne.
  assert (List.filter is_attach (calls (snd (getBrowser W cd dc (initial fs))))
          = [puppeteer_connect e] /\
          List.filter is_launch (calls (snd (getBrowser W cd dc (initial fs))))
          = []) as [Hattach Hlaunch].
  { unfold getBrowser; unfold_code. rewrite He.
    destruct e as [|c t]; [discriminate|]. cbn [Js.if_truthy].
    destruct (0 <? length dc)%nat; repeat settle_case; by cbn. }
  split; [done|].
  destruct (getCookies_frame W url cd path dc (initial fs))
    as (rest & -> & Hrest).
  destruct (session_calls_no_acquisition _ Hrest) as [Ha Hl].
  by rewrite !List.filter_app, Hattach, Hlaunch, Ha, Hl.
Qed.

(** With no endpoint resolved, a resolved executable path is what a run
    launches, once and with a window, and then nothing is attached to. *)
Lemma resolved_path_is_launched (W : World) (url : string)
    (cd : ConnectionData) (path : string) (dc : list Cookie)
    (fs : gmap string string) (p : string) :
  Js.truthy (Js.or (browserWSEndpoint cd) (WEBHOOK_URL W)) = false ->
  Js.or (executablePath cd) (PUPPETEER_EXECUTABLE_PATH W) = Some p ->
  Js.nonempty p = true ->
  (List.filter is_launch (calls (snd (getBrowser W cd dc (initial fs))))
   = [puppeteer_launch p false] /\
   List.filter is_attach (calls (snd (getBrowser W cd dc (initial fs)))) = []) /\
  (List.filter is_launch (calls (snd (getCookies W url cd path dc (initial fs))))
   = [puppeteer_launch p false] /\
   List.filter is_attach (calls (snd (getCookies W url cd path dc (initial fs))))
   = []).
Proof.
  intros Hws Hp Hne.
  assert (List.filter is_launch (calls (snd (getBrowser W cd dc (initial fs))))
          = [puppeteer_launch p false] /\
          List.filter is_attach (calls (snd (getBrowser W cd dc (initial fs))))
          = []) as [Hlaunch Hattach].
  { unfold getBrowser; unfold_code.
    rewrite (if_truthy_falsy _ Hws), Hp.
    destruct p as [|c t]; [discriminate|]. cbn [Js.if_truthy].
    destruct (0 <? length dc)%nat; repeat settle_case; by cbn. }
  split; [done|].
  destruct (getCookies_frame W url cd path dc (initial fs))
    as (rest & -> & Hrest).
  destruct (session_calls_no_acquisition _ Hrest) as [Ha Hl].
  by rewrite !List.filter_app, Hattach, Hlaunch, Ha, Hl.
Qed.

(** C10. A [browserWSEndpoint] (an [executablePath]) parameter that is
    the empty string is the same as an absent one: the resolved value is
    the environment default, [getBrowser] and [getCookies] behave exactly
    as without the parameter, and no run attaches to or launches the
    empty string.  The environment default is what is used in its place:
    with the empty endpoint parameter and [WEBHOOK_URL] set, [getBrowser]
    and [getCookies] attach to [WEBHOOK_URL], once, and launch nothing;
    with the empty executable path parameter, no endpoint resolved and
    [PUPPETEER_EXECUTABLE_PATH] set, they launch that path, once and with
    [headless: false], and attach to nothing. *)
Theorem empty_parameter_is_absent (W : World) (url : string)
    (exe ws : option string) (cookieSavePath : string) (cookies : list Cookie) :
  (Js.or (Some EmptyString) (WEBHOOK_URL W) = Js.or None (WEBHOOK_URL W) /\
   Js.or None (WEBHOOK_URL W) = WEBHOOK_URL W /\
   getBrowser W {| executablePath := exe; browserWSEndpoint := Some EmptyString |} cookies
   = getBrowser W {| executablePath := exe; browserWSEndpoint := None |} cookies /\
   getCookies W url {| executablePath := exe; browserWSEndpoint := Some EmptyString |}
     cookieSavePath cookies
   = getCookies W url {| executablePath := exe; browserWSEndpoint := None |}
       cookieSavePath cookies) /\
  (Js.or (Some EmptyString) (PUPPETEER_EXECUTABLE_PATH W)
   = Js.or None (PUPPETEER_EXECUTABLE_PATH W) /\
   Js.or None (PUPPETEER_EXECUTABLE_PATH W) = PUPPETEER_EXECUTABLE_PATH W /\
   getBrowser W {| executablePath := Some EmptyString; browserWSEndpoint := ws |} cookies
   = getBrowser W {| executablePath := None; browserWSEndpoint := ws |} cookies /\
   getCookies W url {| executablePath := Some EmptyString; browserWSEndpoint := ws |}
     cookieSavePath cookies
   = getCookies W url {| executablePath := None; browserWSEndpoint := ws |}
       cookieSavePath cookies) /\
  (forall (connectionData : ConnectionData) (fs : gmap string string) (c : Call),
     In c (calls (snd (getCookies W url connectionData cookieSavePath cookies
                         (initial fs)))) ->
     c <> puppeteer_connect EmptyString /\
     forall headless, c <> puppeteer_launch EmptyString headless) /\
  (forall (fs : gmap string string) (v : string),
     WEBHOOK_URL W = Some v ->
     Js.nonempty v = true ->
     (List.filter is_attach
        (calls (snd (getBrowser W
                       {| executablePath := exe;
                          browserWSEndpoint := Some EmptyString |}
                       cookies (initial fs))))
      = [puppeteer_connect v] /\
      List.filter is_launch
        (calls (snd (getBrowser W
                       {| executablePath := exe;
                          browserWSEndpoint := Some EmptyString |}
                       cookies (initial fs))))
      = []) /\
     (List.filter is_attach
        (calls (snd (getCookies W url
                       {| executablePath := exe;
                          browserWSEndpoint := Some EmptyString |}
                       cookieSavePath cookies (initial fs))))
      = [puppeteer_connect v] /\
      List.filter is_launch
        (calls (snd (getCookies W url
                       {| executablePath := exe;
                          browserWSEndpoint := Some EmptyString |}
                       cookieSavePath cookies (initial fs))))
      = [])) /\
  (forall (fs : gmap string string) (v : string),
     Js.truthy (Js.or ws (WEBHOOK_URL W)) = false ->
     PUPPETEER_EXECUTABLE_PATH W = Some v ->
     Js.nonempty v = true ->
     (List.filter is_launch
        (calls (snd (getBrowser W
                       {| executablePath := Some EmptyString;
                          browserWSEndpoint := ws |}
                       cookies (initial fs))))
      = [puppeteer_launch v false] /\
      List.filter is_attach
        (calls (snd (getBrowser W
                       {| executablePath := Some EmptyString;
                          browserWSEndpoint := ws |}
                       cookies (initial fs))))
      = []) /\
     (List.filter is_launch
        (calls (snd (getCookies W url
                       {| executablePath := Some EmptyString;
                          browserWSEndpoint := ws |}
                       cookieSavePath cookies (initial fs))))
      = [puppeteer_launch v false] /\
      List.filter is_attach
        (calls (snd (getCookies W url
                       {| executablePath := Some EmptyString;
                          browserWSEndpoint := ws |}
                       cookieSavePath cookies (initial fs))))
      = [])).
Proof.
  split; [by repeat split|]. split; [by repeat split|].
  split; [|split].
  - intros cd fs c Hin. split.
    + intros ->. by apply calls_have_target in Hin.
    + intros headless ->. by apply calls_have_target in Hin.
  - intros fs v Henv Hv.
    by apply resolved_endpoint_is_attached.
  - intros fs v Hws Henv Hv.
    by apply resolved_path_is_launched.
Qed.

(** Once [getBrowser] has its handle, what remains is the seeding. *)
Lemma getBrowser_seeding (W : World) (cd : ConnectionData) (dc : list Cookie)
    (s s0 : State) (b : Browser) :
  getBrowser W cd [] s = (Normal b, s0) ->
  dc <> [] ->
  getBrowser W cd dc s =
    (match settle W (browser_setCookie dc) with
     | Fulfils => Normal b
     | Rejects => Throw (Failed (browser_setCookie dc))
     | NeverSettles => Pending
     end, log (browser_setCookie dc) s0).
Proof.
  intros Hb Hdc. destruct dc as [|c dc]; [done|]. revert Hb.
  unfold getBrowser; unfold_code.
  destruct (Js.if_truthy (Js.or (browserWSEndpoint cd) (WEBHOOK_URL W)));
    [|destruct (Js.if_truthy (Js.or (executablePath cd) (PUPPETEER_EXECUTABLE_PATH W)))];
    cbn; repeat settle_case; cbn; intros [= <- <-]; try done.
Qed.

Lemma session_calls_no_seeding (l : list Call) :
  forallb is_session l = true -> List.filter is_seeding l = [].
Proof.
  induction l as [|c l IH]; [done|]. cbn.
  intros [Hc Hl]%andb_prop. rewrite (IH Hl). by destruct c.
Qed.

(** X15. Suppose acquisition succeeds, which is to say that
    [getBrowser] without cookies returns a handle.  With no initial
    cookies no seeding call is made, by [getBrowser] or later.  With
    initial cookies [getBrowser] makes, after the acquisition and before
    it returns, one [browser.setCookie] call carrying all of them; its
    rejection is what [getBrowser] throws, and [getCookies] throws it in
    turn without opening a page. *)
Theorem seeding_is_one_batched_call (W : World) (fs : gmap string string)
    (url : string) (connectionData : ConnectionData) (cookieSavePath : string)
    (cookies : list Cookie) (browser : Browser) (s0 : State) :
  getBrowser W connectionData [] (initial fs) = (Normal browser, s0) ->
  List.filter is_seeding
    (calls (snd (getCookies W url connectionData cookieSavePath [] (initial fs))))
    = [] /\
  (cookies <> [] ->
   getBrowser W connectionData cookies (initial fs)
   = (match settle W (browser_setCookie cookies) with
      | Fulfils => Normal browser
      | Rejects => Throw (Failed (browser_setCookie cookies))
      | NeverSettles => Pending
      end, log (browser_setCookie cookies) s0) /\
   List.filter is_seeding (calls s0) = [] /\
   (settle W (browser_setCookie cookies) = Rejects ->
    let run := getCookies W url connectionData cookieSavePath cookies (initial fs) in
    fst run = Throw (Failed (browser_setCookie cookies)) /\
    List.filter is_page (calls (snd run)) = [])).
Proof.
  intros Hb.
  assert (List.filter is_seeding (calls s0) = []) as Hnone.
  { revert Hb. unfold getBrowser; unfold_code.
    destruct (Js.if_truthy (Js.or (browserWSEndpoint connectionData) (WEBHOOK_URL W)));
      [|destruct (Js.if_truthy (Js.or (executablePath connectionData)
                                  (PUPPETEER_EXECUTABLE_PATH W)))];
      cbn; repeat settle_case; cbn; by intros [= <- <-]. }
  split.
  - destruct (getCookies_frame W url connectionData cookieSavePath [] (initial fs))
      as (rest & -> & Hrest).
    rewrite Hb. cbn [snd].
    by rewrite List.filter_app, Hnone, (session_calls_no_seeding _ Hrest).
  - intros Hne. pose proof (getBrowser_seeding _ _ _ _ _ _ Hb Hne) as Hseed.
    split; [done|]. split; [done|].
    intros Hrej run. rewrite Hrej in Hseed.
    assert (run = (Throw (Failed (browser_setCookie cookies)),
                   log (browser_setCookie cookies) s0)) as ->.
    { subst run. unfold getCookies. cbv zeta. unfold bind at 1.
      by rewrite Hseed. }
    split; [done|].
    destruct (getBrowser_frame _ _ _ _ _ _ Hb)
      as (_ & _ & _ & made & Hmade & Hacq & _).
    cbn. rewrite Hmade, List.filter_app. cbn. rewrite app_nil_r.
    clear -Hacq. induction made as [|c l IH]; [done|].
    cbn in Hacq. apply andb_prop in Hacq as [Hc Hl].
    cbn. rewrite (IH Hl). by destruct c.
Qed.

(** ** The Cookie Capture Session *)

(** Runs [getCookies] up to the settling of the indefinite wait. *)
Ltac to_the_wait Hb Hpage Hgoto :=
  unfold getCookies; cbv zeta; unfold bind at 1; rewrite Hb;
  unfold_code; rewrite Hpage, Hgoto; cbn.

Ltac to_closure Hb Hpage Hgoto Hwait :=
  to_the_wait Hb Hpage Hgoto; rewrite Hwait, deliver_spec; cbn.

(** Turns the local definition [run] into an equation in the goal, so
    that the code is unfolded once. *)
Ltac as_equation run :=
  let Hrun := fresh "Hrun" in
  match goal with
  | run := ?body |- _ =>
      assert (Hrun : run = body) by reflexivity; clearbody run; revert Hrun
  end.

Lemma release_cases (W : World) (cd : ConnectionData) :
  release_settles W cd ->
  (Js.truthy (Js.or (browserWSEndpoint cd) (WEBHOOK_URL W)) = true /\
   settle W browser_disconnect <> NeverSettles) \/
  (Js.truthy (Js.or (browserWSEndpoint cd) (WEBHOOK_URL W)) = false /\
   settle W browser_close <> NeverSettles).
Proof.
  unfold release_settles, isConnectedBrowser, release_of.
  destruct (Js.truthy _); auto.
Qed.

Ltac release_case Hrel :=
  let Hs := fresh "Hs" in
  let Hset := fresh "Hset" in
  destruct (release_cases _ _ Hrel) as [[-> Hs]|[-> Hs]];
  [destruct (settle _ browser_disconnect) eqn:Hset
  |destruct (settle _ browser_close) eqn:Hset];
  try congruence.

(** C3. When the session reaches closure, having observed response
    events with snapshots S1, ..., Sn, and the optional write and the
    release do not stand in the way of returning, [getCookies] returns Sn
    exactly, and the empty array when n = 0. *)
Theorem last_snapshot_is_returned (W : World) (fs : gmap string string)
    (url : string) (connectionData : ConnectionData) (cookieSavePath : string)
    (defaultCookies : list Cookie) :
  reaches_closure W fs url connectionData defaultCookies ->
  persist_succeeds W cookieSavePath ->
  release_settles W connectionData ->
  let run := getCookies W url connectionData cookieSavePath defaultCookies
               (initial fs) in
  (responses W = [] -> fst run = Normal (Some [])) /\
  (forall earlier Sn, responses W = earlier ++ [Sn] ->
                      fst run = Normal (Some Sn)).
Proof.
  intros ([b [s1 Hb]] & Hpage & Hgoto & Hwait) Hwrite Hrel run.
  assert (fst run = Normal (Some (last_snapshot W))) as ->.
  { as_equation run. to_closure Hb Hpage Hgoto Hwait.
    unfold persist_succeeds in Hwrite.
    destruct (Js.nonempty cookieSavePath);
      [rewrite (Hwrite eq_refl)|]; cbn;
      release_case Hrel; by intros ->. }
  unfold last_snapshot. split.
  - by intros ->.
  - intros earlier Sn ->. by rewrite last_snoc.
Qed.

(** C7. When the session reaches closure and returns (the write, if
    any, succeeds and the release settles), then with a non-empty
    [cookieSavePath] the file at that path holds the text of the returned
    array, which any reader inverting [JSON.stringify] on that array reads
    back as the returned array; with the empty [cookieSavePath] no write
    is made and the files are as they were. *)
Theorem returned_cookies_are_persisted (W : World) (fs : gmap string string)
    (url : string) (connectionData : ConnectionData) (cookieSavePath : string)
    (defaultCookies : list Cookie) :
  reaches_closure W fs url connectionData defaultCookies ->
  persist_succeeds W cookieSavePath ->
  release_settles W connectionData ->
  let run := getCookies W url connectionData cookieSavePath defaultCookies
               (initial fs) in
  exists returned,
    fst run = Normal (Some returned) /\
    (Js.nonempty cookieSavePath = true ->
     files (snd run) !! cookieSavePath = Some (JSON_stringify W returned) /\
     forall JSON_parse : string -> option (list Cookie),
       JSON_parse (JSON_stringify W returned) = Some returned ->
       exists text, files (snd run) !! cookieSavePath = Some text /\
                    JSON_parse text = Some returned) /\
    (cookieSavePath = EmptyString ->
     files (snd run) = fs /\ List.filter is_write (calls (snd run)) = []).
Proof.
  intros ([b [s1 Hb]] & Hpage & Hgoto & Hwait) Hwrite Hrel run.
  destruct (getBrowser_frame _ _ _ _ _ _ Hb)
    as (Hfiles & _ & _ & made & Hmade & Hacq & _).
  cbn in Hfiles, Hmade.
  assert (List.filter is_write made = []) as Hnowrite.
  { clear -Hacq. induction made as [|c l IH]; [done|].
    cbn in Hacq. apply andb_prop in Hacq as [Hc Hl].
    cbn. rewrite (IH Hl). by destruct c. }
  exists (last_snapshot W). unfold last_snapshot.
  as_equation run. to_closure Hb Hpage Hgoto Hwait.
  unfold persist_succeeds in Hwrite.
  destruct cookieSavePath as [|c path]; cbn [Js.nonempty].
  - release_case Hrel; intros ->; cbn;
      (split; [done|]); (split; [done|]); intros _;
      (split; [done|]);
      rewrite Hmade, !List.filter_app, Hnowrite; cbn;
      by rewrite filter_replicate_cookies.
  - rewrite (Hwrite eq_refl). cbn.
    release_case Hrel; intros ->; cbn;
      (split; [done|]); (split; [|done]); intros _;
      rewrite lookup_insert_eq; (split; [done|]);
      intros JSON_parse Hinverse; by eexists.
Qed.

Lemma acquisition_calls_no_session_step (made : list Call) :
  forallb is_acquisition made = true ->
  List.filter is_release made = [] /\ List.filter is_wait made = [] /\
  List.filter is_write made = [].
Proof.
  induction made as [|c l IH]; [done|]. cbn.
  intros [Hc Hl]%andb_prop. destruct (IH Hl) as (-> & -> & ->).
  by destruct c.
Qed.

(** Once the indefinite wait has been ended by closure, the handle is
    released exactly once however the write goes, provided the write
    returns: by [disconnect] in remote mode, by [close] in local mode. *)
Lemma released_once_on_closure (W : World) (fs : gmap string string)
    (url : string) (connectionData : ConnectionData) (cookieSavePath : string)
    (defaultCookies : list Cookie) :
  reaches_closure W fs url connectionData defaultCookies ->
  (forall data, settle W (fs_writeFileSync cookieSavePath data) <> NeverSettles) ->
  List.filter is_release
    (calls (snd (getCookies W url connectionData cookieSavePath defaultCookies
                   (initial fs))))
  = [release_of (isConnectedBrowser W connectionData)].
Proof.
  intros ([b [s1 Hb]] & Hpage & Hgoto & Hwait) Hwrite.
  destruct (getBrowser_frame _ _ _ _ _ _ Hb)
    as (_ & _ & _ & made & Hmade & Hacq & _).
  destruct (acquisition_calls_no_session_step _ Hacq) as (Hnone & _ & _).
  cbn in Hmade. unfold isConnectedBrowser, release_of.
  to_closure Hb Hpage Hgoto Hwait.
  destruct (Js.nonempty cookieSavePath); cbn;
    [destruct (settle W (fs_writeFileSync _ _)) eqn:Hset;
     [| |by destruct (Hwrite _ Hset)]|];
    cbn;
    destruct (Js.truthy (Js.or (browserWSEndpoint connectionData) (WEBHOOK_URL W)));
    repeat settle_case; cbn;
    rewrite Hmade, !List.filter_app, Hnone; cbn;
    by rewrite filter_replicate_cookies.
Qed.

(** C4, as amended.  When the session reaches closure with a non-empty
    [cookieSavePath] and the write fails, the handle is still released,
    exactly once and by the mode's operation, and the files are left as
    they were; but the call does not return the captured cookies: it
    throws the error of the write. *)
Theorem write_failure_is_thrown_after_release (W : World)
    (fs : gmap string string) (url : string) (connectionData : ConnectionData)
    (cookieSavePath : string) (defaultCookies : list Cookie) :
  reaches_closure W fs url connectionData defaultCookies ->
  Js.nonempty cookieSavePath = true ->
  settle W (fs_writeFileSync cookieSavePath (JSON_stringify W (last_snapshot W)))
    = Rejects ->
  release_settles W connectionData ->
  let run := getCookies W url connectionData cookieSavePath defaultCookies
               (initial fs) in
  fst run = Throw (Failed (fs_writeFileSync cookieSavePath
                             (JSON_stringify W (last_snapshot W)))) /\
  List.filter is_release (calls (snd run))
    = [release_of (isConnectedBrowser W connectionData)] /\
  files (snd run) = fs.
Proof.
  intros ([b [s1 Hb]] & Hpage & Hgoto & Hwait) Hpath Hwrite Hrel run.
  destruct (getBrowser_frame _ _ _ _ _ _ Hb)
    as (Hfiles & _ & _ & made & Hmade & Hacq & _).
  destruct (acquisition_calls_no_session_step _ Hacq) as (Hnone & _ & _).
  cbn in Hfiles, Hmade. unfold isConnectedBrowser, release_of, last_snapshot in *.
  as_equation run. to_closure Hb Hpage Hgoto Hwait.
  rewrite Hpath. cbn. rewrite Hwrite. cbn.
  release_case Hrel; intros ->; cbn; (split; [done|]); (split; [|done]);
    rewrite Hmade, !List.filter_app, Hnone; cbn;
    by rewrite filter_replicate_cookies.
Qed.

(** C1, as amended.  When a handle is acquired and a page opened but
    navigation fails, [getCookies] throws the navigation error there and
    then: it does not enter the indefinite wait, writes no file, and
    returns no cookies. *)
Theorem navigation_failure_is_thrown (W : World) (fs : gmap string string)
    (url : string) (connectionData : ConnectionData) (cookieSavePath : string)
    (defaultCookies : list Cookie) :
  (exists browser s, getBrowser W connectionData defaultCookies (initial fs)
                     = (Normal browser, s)) ->
  settle W browser_newPage = Fulfils ->
  settle W (page_goto url) = Rejects ->
  let run := getCookies W url connectionData cookieSavePath defaultCookies
               (initial fs) in
  fst run = Throw (Failed (page_goto url)) /\
  List.filter is_wait (calls (snd run)) = [] /\
  List.filter is_write (calls (snd run)) = [] /\
  files (snd run) = fs.
Proof.
  intros [b [s1 Hb]] Hpage Hgoto run.
  destruct (getBrowser_frame _ _ _ _ _ _ Hb)
    as (Hfiles & _ & _ & made & Hmade & Hacq & _).
  destruct (acquisition_calls_no_session_step _ Hacq) as (_ & Hnowait & Hnowrite).
  cbn in Hfiles, Hmade.
  as_equation run. to_the_wait Hb Hpage Hgoto.
  intros ->; cbn. rewrite Hmade, !List.filter_app, Hnowait, Hnowrite.
  by cbn.
Qed.

(** Whatever array a run of [getCookies] returns, in any world, is the
    snapshot of the last response event observed. *)
Lemma returned_is_last_snapshot (W : World) (fs : gmap string string)
    (url : string) (cd : ConnectionData) (path : string) (dc : list Cookie)
    (returned : list Cookie) :
  fst (getCookies W url cd path dc (initial fs)) = Normal (Some returned) ->
  returned = last_snapshot W.
Proof.
  unfold getCookies, last_snapshot. cbv zeta. unfold bind at 1.
  destruct (getBrowser W cd dc (initial fs)) as [[b| |] s1]; [|done..].
  unfold_code.
  settle_case; cbn; [|done..].
  settle_case; cbn; [|done..].
  rewrite deliver_spec.
  settle_case; cbn;
    destruct (Js.nonempty path),
      (Js.truthy (Js.or (browserWSEndpoint cd) (WEBHOOK_URL W)));
    cbn; repeat (settle_case; cbn); congruence.
Qed.

(** When navigation fails no release is made, in any world: the general
    form of the run of C2. *)
Lemma not_released_when_navigation_fails (W : World) (fs : gmap string string)
    (url : string) (cd : ConnectionData) (path : string) (dc : list Cookie)
    (b : Browser) (s1 : State) :
  getBrowser W cd dc (initial fs) = (Normal b, s1) ->
  settle W browser_newPage = Fulfils ->
  settle W (page_goto url) = Rejects ->
  List.filter is_release
    (calls (snd (getCookies W url cd path dc (initial fs)))) = [].
Proof.
  intros Hb Hpage Hgoto.
  destruct (getBrowser_frame _ _ _ _ _ _ Hb)
    as (_ & _ & _ & made & Hmade & Hacq & _).
  destruct (acquisition_calls_no_session_step _ Hacq) as (Hnone & _ & _).
  cbn in Hmade. to_the_wait Hb Hpage Hgoto.
  by rewrite Hmade, !List.filter_app, Hnone.
Qed.

(** ** The claims at concrete runs *)

(** C1, counterexample.  A local browser is launched, the page opens and
    navigation fails: the call throws the navigation error, never enters
    the wait, and returns no cookies. *)
Lemma navigation_failure_not_deferred :
  settle (world navigation_fails) (page_goto example_url) = Rejects /\
  fst navigation_failure_run = Throw (Failed (page_goto example_url)) /\
  ~ In page_waitForFunction (calls (snd navigation_failure_run)) /\
  ~ exists captured, fst navigation_failure_run = Normal (Some captured).
Proof.
  split; [reflexivity|]. split; [reflexivity|]. split.
  - vm_compute. intuition discriminate.
  - intros [captured Hrun]. vm_compute in Hrun. discriminate.
Qed.

(** C2, the failing run.  A local browser is launched, so a handle is
    held; navigation fails, the call throws, and the log holds no release
    of the handle at all: [page.goto] stands before the [try] whose
    [finally] releases. *)
Lemma handle_not_released_on_navigation_failure :
  List.filter is_launch (calls (snd navigation_failure_run))
    = [puppeteer_launch chrome false] /\
  fst navigation_failure_run = Throw (Failed (page_goto example_url)) /\
  List.filter is_release (calls (snd navigation_failure_run)) = [].
Proof. by vm_compute. Qed.

(** C4, counterexample.  The session reaches closure with a cookie file
    to write and the write fails: the caller receives the error of the
    write, not the captured cookies. *)
Lemma write_failure_changes_the_result :
  reaches_closure (world write_fails) no_files example_url remote_browser [] /\
  Js.nonempty out_json = true /\
  fst write_failure_run
    = Throw (Failed (fs_writeFileSync out_json
                       (Json.stringify [session_cookie; initial_cookie]))) /\
  ~ exists captured, fst write_failure_run = Normal (Some captured).
Proof.
  split; [|split; [reflexivity|split]].
  - split; [by eexists _, _|by repeat split].
  - by vm_compute.
  - intros [captured Hrun]. vm_compute in Hrun. discriminate.
Qed.

(** C8, the failing run.  The remote browser is attached, so a handle is
    held; the initial cookies are refused, the call throws the error of
    [browser.setCookie] at once, and the log holds no release of the
    handle: [getBrowser] has none of its own and is called before the
    [try] whose [finally] releases. *)
Lemma seeding_failure_leaves_the_handle :
  List.filter is_attach (calls (snd seeding_failure_run))
    = [puppeteer_connect endpoint] /\
  fst seeding_failure_run = Throw (Failed (browser_setCookie [initial_cookie])) /\
  List.filter is_release (calls (snd seeding_failure_run)) = [].
Proof. by vm_compute. Qed.

(** ** The theorems at concrete inputs *)

(** Both parameters and both environment defaults are given. *)
Lemma remote_takes_priority_witness :
  List.filter is_attach
    (calls (snd (getBrowser (world_with_env closing) both_supplied
                   [initial_cookie] (initial no_files))))
    = [puppeteer_connect endpoint] /\
  List.filter is_launch
    (calls (snd (getBrowser (world_with_env closing) both_supplied
                   [initial_cookie] (initial no_files))))
    = [].
Proof.
  exact (remote_takes_priority (world_with_env closing) no_files both_supplied
           [initial_cookie] endpoint eq_refl eq_refl).
Defined.

(** Only the executable path is given, by the parameter. *)
Lemma local_launch_is_visible_witness :
  List.filter is_launch
    (calls (snd (getBrowser (world closing) local_chrome [] (initial no_files))))
    = [puppeteer_launch chrome false] /\
  List.filter is_attach
    (calls (snd (getBrowser (world closing) local_chrome [] (initial no_files))))
    = [].
Proof.
  exact (local_launch_is_visible (world closing) no_files local_chrome []
           chrome eq_refl eq_refl eq_refl).
Defined.

(** An empty endpoint parameter, nothing else. *)
Lemma no_connection_method_witness :
  getCookies (world closing) example_url
    {| executablePath := None; browserWSEndpoint := Some EmptyString |}
    out_json [] (initial no_files)
  = (Throw NoConnectionMethod, initial no_files).
Proof.
  exact (proj2 (no_connection_method (world closing) no_files example_url
                  {| executablePath := None;
                     browserWSEndpoint := Some EmptyString |}
                  out_json [] eq_refl eq_refl eq_refl eq_refl)).
Defined.

(** The endpoint parameter is the empty string and [WEBHOOK_URL] is
    set: the run attaches to [WEBHOOK_URL]. *)
Lemma empty_parameter_is_absent_witness :
  List.filter is_attach
    (calls (snd (getCookies (world_with_env closing) example_url
                   {| executablePath := None;
                      browserWSEndpoint := Some EmptyString |}
                   out_json [] (initial no_files))))
  = [puppeteer_connect endpoint].
Proof.
  exact (proj1 (proj2 (proj1 (proj2 (proj2 (proj2
           (empty_parameter_is_absent (world_with_env closing) example_url
              None None out_json []))))
           no_files endpoint eq_refl eq_refl))).
Defined.

(** Two snapshots are observed; the second is returned. *)
Lemma last_snapshot_is_returned_witness :
  fst (getCookies (world closing) example_url local_chrome out_json []
         (initial no_files))
  = Normal (Some [session_cookie; initial_cookie]).
Proof.
  refine (proj2 (last_snapshot_is_returned (world closing) no_files
                   example_url local_chrome out_json [] _ _ _)
            [[session_cookie]] [session_cookie; initial_cookie] eq_refl).
  - split; [by eexists _, _|by repeat split].
  - intros _ data. reflexivity.
  - unfold release_settles. vm_compute. discriminate.
Defined.

(** The file written holds the returned cookies, as the reference reader
    of [Json] reads them back. *)
Lemma returned_cookies_are_persisted_witness :
  exists returned text,
    fst (getCookies (world closing) example_url remote_browser out_json []
           (initial no_files)) = Normal (Some returned) /\
    files (snd (getCookies (world closing) example_url remote_browser out_json
                  [] (initial no_files))) !! out_json = Some text /\
    Json.parse text = Some returned.
Proof.
  assert (reaches_closure (world closing) no_files example_url remote_browser [])
    as Hclosure by (split; [by eexists _, _|by repeat split]).
  assert (persist_succeeds (world closing) out_json)
    as Hwrite by (intros _ data; reflexivity).
  assert (release_settles (world closing) remote_browser)
    as Hrel by (unfold release_settles; vm_compute; discriminate).
  destruct (returned_cookies_are_persisted (world closing) no_files
              example_url remote_browser out_json [] Hclosure Hwrite Hrel)
    as (returned & Hreturned & Hfile & _).
  destruct (Hfile eq_refl) as [_ Hread].
  assert (returned = [session_cookie; initial_cookie]) as Heq.
  { vm_compute in Hreturned. injection Hreturned as <-. reflexivity. }
  destruct (Hread Json.parse) as (text & Htext & Hparse).
  { rewrite Heq. vm_compute. reflexivity. }
  exists returned, text. auto.
Defined.

(** The write fails in remote mode: one [disconnect], and the error. *)
Lemma write_failure_is_thrown_after_release_witness :
  fst write_failure_run
    = Throw (Failed (fs_writeFileSync out_json
                       (Json.stringify [session_cookie; initial_cookie]))) /\
  List.filter is_release (calls (snd write_failure_run)) = [browser_disconnect] /\
  files (snd write_failure_run) = no_files.
Proof.
  refine (write_failure_is_thrown_after_release (world write_fails) no_files
            example_url remote_browser out_json [] _ eq_refl eq_refl _).
  - split; [by eexists _, _|by repeat split].
  - unfold release_settles. vm_compute. discriminate.
Defined.

(** Navigation fails after a local launch. *)
Lemma navigation_failure_is_thrown_witness :
  fst navigation_failure_run = Throw (Failed (page_goto example_url)) /\
  List.filter is_wait (calls (snd navigation_failure_run)) = [] /\
  List.filter is_write (calls (snd navigation_failure_run)) = [] /\
  files (snd navigation_failure_run) = no_files.
Proof.
  refine (navigation_failure_is_thrown (world navigation_fails) no_files
            example_url local_chrome out_json [] _ eq_refl eq_refl).
  by eexists _, _.
Defined.

(** One initial cookie, refused by the attached browser. *)
Lemma seeding_is_one_batched_call_witness :
  getBrowser (world seeding_fails) remote_browser [initial_cookie]
    (initial no_files)
  = (Throw (Failed (browser_setCookie [initial_cookie])),
     log (browser_setCookie [initial_cookie])
       (log (puppeteer_connect endpoint) (initial no_files))) /\
  fst seeding_failure_run = Throw (Failed (browser_setCookie [initial_cookie])) /\
  List.filter is_page (calls (snd seeding_failure_run)) = [].
Proof.
  destruct (seeding_is_one_batched_call (world seeding_fails) no_files
              example_url remote_browser EmptyString [initial_cookie]
              (Connected endpoint)
              (log (puppeteer_connect endpoint) (initial no_files)) eq_refl)
    as [_ Hseed].
  destruct (Hseed ltac:(discriminate)) as (Hbrowser & _ & Hthrown).
  split; [exact Hbrowser|]. exact (Hthrown eq_refl).
Defined.

(** ** Runs from any state *)

(** Where the files stand after a run from any state. *)
Lemma getCookies_files (W : World) (url : string) (cd : ConnectionData)
    (path : string) (dc : list Cookie) (s : State) :
  files (snd (getCookies W url cd path dc s)) = files s \/
  files (snd (getCookies W url cd path dc s))
  = <[path := JSON_stringify W (last_snapshot W)]> (files s) /\
  Js.nonempty path = true /\
  settle W page_waitForFunction = Rejects.
Proof.
  set (run := getCookies W url cd path dc s). as_equation run.
  unfold getCookies, last_snapshot. cbv zeta. unfold bind at 1.
  destruct (getBrowser W cd dc s) as [[b| |] s1] eqn:Hb;
    destruct (getBrowser_frame _ _ _ _ _ _ Hb) as (Hsame & _);
    [|intros ->; by left..].
  unfold_code.
  settle_case; cbn; [|intros ->; by left..].
  settle_case; cbn; [|intros ->; by left..].
  rewrite deliver_spec; cbn.
  destruct (settle W page_waitForFunction) eqn:Hwait; cbn;
    destruct (Js.nonempty path),
      (Js.truthy (Js.or (browserWSEndpoint cd) (WEBHOOK_URL W)));
    cbn; repeat (settle_case; cbn); intros ->; cbn; rewrite Hsame; auto.
Qed.

(** An array returned with a path given has been written to the path. *)
Lemma returned_is_written (W : World) (url : string) (cd : ConnectionData)
    (path : string) (dc : list Cookie) (s : State) (returned : list Cookie) :
  fst (getCookies W url cd path dc s) = Normal (Some returned) ->
  Js.nonempty path = true ->
  returned = last_snapshot W /\
  files (snd (getCookies W url cd path dc s)) !! path
  = Some (JSON_stringify W returned).
Proof.
  set (run := getCookies W url cd path dc s). as_equation run.
  unfold getCookies, last_snapshot. cbv zeta. unfold bind at 1.
  destruct (getBrowser W cd dc s) as [[b| |] s1];
    [|by intros ->..].
  unfold_code.
  settle_case; cbn; [|by intros ->..].
  settle_case; cbn; [|by intros ->..].
  rewrite deliver_spec; cbn.
  intros Hrun Hret Hpath. revert Hrun Hret. rewrite Hpath.
  destruct (settle W page_waitForFunction); cbn;
    destruct (Js.truthy (Js.or (browserWSEndpoint cd) (WEBHOOK_URL W)));
    cbn; repeat (settle_case; cbn); intros ->; cbn; intros [= <-];
    by rewrite lookup_insert_eq.
Qed.

(** Without any connection data a run ends at once, from any state. *)
Lemma unconfigured (W : World) (url : string) (cd : ConnectionData)
    (path : string) (dc : list Cookie) (s : State) :
  Js.truthy (browserWSEndpoint cd) = false ->
  Js.truthy (executablePath cd) = false ->
  Js.truthy (WEBHOOK_URL W) = false ->
  Js.truthy (PUPPETEER_EXECUTABLE_PATH W) = false ->
  getCookies W url cd path dc s = (Throw NoConnectionMethod, s).
Proof.
  intros Hws Hexe Henv_ws Henv_exe.
  unfold getCookies, getBrowser; unfold_code.
  by rewrite (if_truthy_falsy _ (or_falsy _ _ Hws Henv_ws)),
             (if_truthy_falsy _ (or_falsy _ _ Hexe Henv_exe)).
Qed.

(** Without initial cookies a run adds no seeding call. *)
Lemma no_seeding_without_cookies (W : World) (url : string)
    (cd : ConnectionData) (path : string) (s : State) :
  List.filter is_seeding (calls (snd (getCookies W url cd path [] s)))
  = List.filter is_seeding (calls s).
Proof.
  destruct (getCookies_frame W url cd path [] s) as (rest & -> & Hrest).
  rewrite List.filter_app, (session_calls_no_seeding _ Hrest), app_nil_r.
  unfold getBrowser; unfold_code.
  destruct (Js.if_truthy (Js.or (browserWSEndpoint cd) (WEBHOOK_URL W)));
    [|destruct (Js.if_truthy (Js.or (executablePath cd)
                                (PUPPETEER_EXECUTABLE_PATH W)))];
    cbn; repeat settle_case; cbn;
    rewrite ?List.filter_app; cbn; by rewrite ?app_nil_r.
Qed.

(** ** Lemmas on scripts *)

Lemma keeps_ret {A} (I : State -> Prop) (a : A) : keeps I (script_ret a).
Proof. by intros st. Qed.

Lemma keeps_bind {A B} (I : State -> Prop) (m : Script A) (k : A -> Script B) :
  keeps I m -> (forall a, keeps I (k a)) -> keeps I (script_bind m k).
Proof.
  intros Hm Hk st HI. unfold script_bind.
  specialize (Hm st HI). destruct (m st) as [[a|msg|code|] st']; try done.
  by apply Hk.
Qed.

Lemma keeps_catch {A} (I : State -> Prop) (m : Script A)
    (handler : string -> Script A) :
  keeps I m -> (forall msg, keeps I (handler msg)) ->
  keeps I (script_catch m handler).
Proof.
  intros Hm Hh st HI. unfold script_catch.
  specialize (Hm st HI). destruct (m st) as [[a|msg|code|] st']; try done.
  by apply Hh.
Qed.

Lemma keeps_log (I : State -> Prop) (text : string) : keeps I (console_log text).
Proof. by intros st. Qed.

Lemma keeps_err (I : State -> Prop) (text : string) : keeps I (console_err text).
Proof. by intros st. Qed.

Lemma keeps_exit {A} (I : State -> Prop) (code : nat) :
  keeps I (@process_exit A code).
Proof. by intros st. Qed.

Lemma keeps_array_of (I : State -> Prop) (says : Messages)
    (result : option (list Cookie)) :
  keeps I (array_of says result).
Proof. by destruct result; intros st. Qed.

Lemma keeps_forEach {A} (I : State -> Prop) (body : A -> nat -> Script unit)
    (items : list A) (index : nat) :
  (forall item i, keeps I (body item i)) -> keeps I (forEach body items index).
Proof.
  intros Hbody. revert index.
  induction items as [|item rest IH]; intros index; cbn [forEach].
  - apply keeps_ret.
  - apply keeps_bind; [apply Hbody|intros _; apply IH].
Qed.

Lemma keeps_await {A} (I : State -> Prop) (says : Messages) (m : M A) :
  (forall s, I s -> I (snd (m (new_invocation s)))) -> keeps I (await says m).
Proof.
  intros Hm [out s] HI. unfold await. cbn [fst snd] in *.
  specialize (Hm s HI).
  by destruct (m (new_invocation s)) as [[a|e|] s'].
Qed.

Create HintDb scripts.
#[local] Hint Resolve keeps_ret keeps_log keeps_err keeps_exit keeps_array_of
  : scripts.

Ltac keeps_steps :=
  repeat first
    [ apply keeps_bind; [|intros ?]
    | apply keeps_catch; [|intros ?]
    | apply keeps_forEach; intros ? ?
    | match goal with |- keeps _ (if ?b then _ else _) => destruct b end
    | solve [auto with scripts] ].

(** A loop of [console.log]s only prints, and returns. *)
Lemma forEach_prints {A} (line : A -> nat -> string) (items : list A)
    (index : nat) (st : list Line * State) :
  exists lines,
    forEach (fun item i => console_log (line item i)) items index st
    = (Returns tt, (fst st ++ lines, snd st)) /\
    length lines = length items.
Proof.
  revert index st. induction items as [|item rest IH]; intros index st.
  - exists []. cbn. rewrite app_nil_r. by destruct st.
  - cbn [forEach]. unfold script_bind, console_log at 1. cbn [fst snd].
    destruct (IH (S index) (fst st ++ [log_line (line item index)], snd st))
      as (lines & -> & Hlen).
    exists (log_line (line item index) :: lines). cbn [fst snd].
    rewrite <- app_assoc. cbn. by rewrite Hlen.
Qed.

(** ** Further properties of [getBrowser] and [getCookies] *)

Ltac initial_part :=
  do 2 eexists;
  (split; [rewrite <- ?app_assoc; cbn; reflexivity|]);
  rewrite <- ?app_assoc; cbn; rewrite <- ?app_assoc; cbn; reflexivity.

(** The calls a session makes after [getBrowser] are an initial part of
    the script. *)
Lemma session_shape (W : World) (fs : gmap string string)
    (url : string) (connectionData : ConnectionData) (cookieSavePath : string)
    (defaultCookies : list Cookie) :
  exists made remaining,
    calls (snd (getCookies W url connectionData cookieSavePath defaultCookies
                  (initial fs)))
    = calls (snd (getBrowser W connectionData defaultCookies (initial fs)))
      ++ made /\
    session_script W url connectionData cookieSavePath = made ++ remaining.
Proof.
  unfold session_script, last_snapshot, isConnectedBrowser, release_of.
  unfold getCookies. cbv zeta. unfold bind at 1.
  destruct (getBrowser W connectionData defaultCookies (initial fs))
    as [[b| |] s1]; cbn [snd];
    try (exists []; eexists; split; [by rewrite app_nil_r|reflexivity]).
  unfold_code.
  settle_case; cbn;
    [|initial_part..].
  settle_case; cbn; rewrite <- ?app_assoc; cbn;
    [|initial_part..].
  rewrite deliver_spec; cbn.
  destruct (settle W page_waitForFunction); cbn;
    destruct (Js.nonempty cookieSavePath),
      (Js.truthy (Js.or (browserWSEndpoint connectionData) (WEBHOOK_URL W)));
    cbn; repeat (settle_case; cbn); rewrite <- ?app_assoc; cbn;
    initial_part.
Qed.

(** X1. In every world the calls a session makes after [getBrowser] are an
    initial part of one fixed sequence: open the page, navigate, register
    the listener, wait (reading the cookies once per response event),
    write the file, release, report a failed release.  No step is made
    twice and none out of order. *)
Theorem session_follows_the_script (W : World) (fs : gmap string string)
    (url : string) (connectionData : ConnectionData) (cookieSavePath : string)
    (defaultCookies : list Cookie) :
  exists made remaining,
    calls (snd (getCookies W url connectionData cookieSavePath defaultCookies
                  (initial fs)))
    = calls (snd (getBrowser W connectionData defaultCookies (initial fs)))
      ++ made /\
    session_script W url connectionData cookieSavePath = made ++ remaining /\
    forallb is_acquisition
      (calls (snd (getBrowser W connectionData defaultCookies (initial fs))))
    = true.
Proof.
  destruct (session_shape W fs url connectionData cookieSavePath defaultCookies)
    as (made & remaining & Hcalls & Hscript).
  exists made, remaining. split; [done|]. split; [done|].
  destruct (getBrowser W connectionData defaultCookies (initial fs))
    as [r s] eqn:Hb.
  destruct (getBrowser_frame _ _ _ _ _ _ Hb)
    as (_ & _ & _ & before & Hbefore & Hacq & _).
  cbn [snd]. by rewrite Hbefore.
Qed.

Lemma or_of_falsy (a b : option string) :
  Js.truthy a = false -> Js.or a b = b.
Proof. unfold Js.or. by intros ->. Qed.

(** X2. A parameter that is a non-empty string wins over the environment
    variable, which is used only when the parameter is absent or empty:
    the attach goes to [connectionData.browserWSEndpoint] whatever
    [WEBHOOK_URL] holds, and to [WEBHOOK_URL] only without the parameter;
    when no endpoint resolves the launch is of
    [connectionData.executablePath] whatever [PUPPETEER_EXECUTABLE_PATH]
    holds, and of the variable only without the parameter. *)
Theorem parameter_overrides_environment (W : World) (fs : gmap string string)
    (connectionData : ConnectionData) (cookies : list Cookie) (v : string) :
  Js.nonempty v = true ->
  let made := calls (snd (getBrowser W connectionData cookies (initial fs))) in
  (browserWSEndpoint connectionData = Some v ->
   List.filter is_attach made = [puppeteer_connect v]) /\
  (Js.truthy (browserWSEndpoint connectionData) = false ->
   WEBHOOK_URL W = Some v ->
   List.filter is_attach made = [puppeteer_connect v]) /\
  (Js.truthy (Js.or (browserWSEndpoint connectionData) (WEBHOOK_URL W)) = false ->
   executablePath connectionData = Some v ->
   List.filter is_launch made = [puppeteer_launch v false]) /\
  (Js.truthy (Js.or (browserWSEndpoint connectionData) (WEBHOOK_URL W)) = false ->
   Js.truthy (executablePath connectionData) = false ->
   PUPPETEER_EXECUTABLE_PATH W = Some v ->
   List.filter is_launch made = [puppeteer_launch v false]).
Proof.
  intros Hv made. subst made. destruct v as [|c v]; [discriminate|].
  unfold getBrowser; unfold_code. split; [|split; [|split]].
  - intros ->.
    destruct (0 <? length cookies)%nat; cbn; repeat settle_case; by cbn.
  - intros Hparam ->. rewrite (or_of_falsy _ _ Hparam).
    destruct (0 <? length cookies)%nat; cbn; repeat settle_case; by cbn.
  - intros Hws ->. rewrite (if_truthy_falsy _ Hws).
    destruct (0 <? length cookies)%nat; cbn; repeat settle_case; by cbn.
  - intros Hws Hparam ->. rewrite (if_truthy_falsy _ Hws).
    rewrite (or_of_falsy _ _ Hparam).
    destruct (0 <? length cookies)%nat; cbn; repeat settle_case; by cbn.
Qed.

(** X3. When the attach is refused, [getCookies] reports it once on the
    console and throws the error of the attach.  Nothing else happens: no
    launch is tried in its place, even if an executable path resolves, no
    page is opened and no file written. *)
Theorem attach_failure_is_reported_and_thrown (W : World)
    (fs : gmap string string) (url : string) (connectionData : ConnectionData)
    (cookieSavePath : string) (defaultCookies : list Cookie) (e : string) :
  Js.or (browserWSEndpoint connectionData) (WEBHOOK_URL W) = Some e ->
  Js.nonempty e = true ->
  settle W (puppeteer_connect e) = Rejects ->
  getCookies W url connectionData cookieSavePath defaultCookies (initial fs)
  = (Throw (Failed (puppeteer_connect e)),
     {| calls := [puppeteer_connect e;
                  console_error "Error connecting to webhook URL"];
        files := fs; cookies := []; listening := false |}).
Proof.
  intros He Hne Hrej. destruct e as [|c e]; [discriminate|].
  unfold getCookies, getBrowser; unfold_code.
  by rewrite He; cbn; rewrite Hrej.
Qed.

(** X4. When no endpoint resolves and the launch fails, [getCookies]
    reports it once on the console and throws the error of the launch,
    having made no other call. *)
Theorem launch_failure_is_reported_and_thrown (W : World)
    (fs : gmap string string) (url : string) (connectionData : ConnectionData)
    (cookieSavePath : string) (defaultCookies : list Cookie) (p : string) :
  Js.truthy (Js.or (browserWSEndpoint connectionData) (WEBHOOK_URL W)) = false ->
  Js.or (executablePath connectionData) (PUPPETEER_EXECUTABLE_PATH W) = Some p ->
  Js.nonempty p = true ->
  settle W (puppeteer_launch p false) = Rejects ->
  getCookies W url connectionData cookieSavePath defaultCookies (initial fs)
  = (Throw (Failed (puppeteer_launch p false)),
     {| calls := [puppeteer_launch p false;
                  console_error "Error launching browser, check if the binary path is correct and is compatible with the package"];
        files := fs; cookies := []; listening := false |}).
Proof.
  intros Hws Hp Hne Hrej. destruct p as [|c p]; [discriminate|].
  unfold getCookies, getBrowser; unfold_code.
  by rewrite (if_truthy_falsy _ Hws), Hp; cbn; rewrite Hrej.
Qed.

(** X5. When the handle is there but the page cannot be opened,
    [getCookies] throws the error of [browser.newPage()] and stops: the
    log is that of [getBrowser] with the one call added, so there is no
    navigation, no wait, no write and no release. *)
Theorem page_failure_is_thrown (W : World) (fs : gmap string string)
    (url : string) (connectionData : ConnectionData) (cookieSavePath : string)
    (defaultCookies : list Cookie) (browser : Browser) (s : State) :
  getBrowser W connectionData defaultCookies (initial fs) = (Normal browser, s) ->
  settle W browser_newPage = Rejects ->
  getCookies W url connectionData cookieSavePath defaultCookies (initial fs)
  = (Throw (Failed browser_newPage), log browser_newPage s).
Proof.
  intros Hb Hpage. unfold getCookies. cbv zeta. unfold bind at 1.
  rewrite Hb. unfold_code. by rewrite Hpage.
Qed.

(** X6. A release that fails at closure is reported on the console and
    goes no further: [getCookies] still returns the captured cookies, and
    the log ends with the one release followed by the report. *)
Theorem release_failure_is_reported_not_thrown (W : World)
    (fs : gmap string string) (url : string) (connectionData : ConnectionData)
    (cookieSavePath : string) (defaultCookies : list Cookie) :
  reaches_closure W fs url connectionData defaultCookies ->
  persist_succeeds W cookieSavePath ->
  settle W (release_of (isConnectedBrowser W connectionData)) = Rejects ->
  let run := getCookies W url connectionData cookieSavePath defaultCookies
               (initial fs) in
  fst run = Normal (Some (last_snapshot W)) /\
  exists before,
    calls (snd run)
    = before ++ [release_of (isConnectedBrowser W connectionData);
                 console_error "Error closing browser"] /\
    List.filter is_release before = [].
Proof.
  intros ([b [s1 Hb]] & Hpage & Hgoto & Hwait) Hwrite Hrel run.
  destruct (getBrowser_frame _ _ _ _ _ _ Hb)
    as (_ & _ & _ & made & Hmade & Hacq & _).
  destruct (acquisition_calls_no_session_step _ Hacq) as (Hnone & _ & _).
  cbn in Hmade. unfold isConnectedBrowser, release_of, last_snapshot in *.
  as_equation run. to_closure Hb Hpage Hgoto Hwait.
  unfold persist_succeeds in Hwrite.
  destruct (Js.nonempty cookieSavePath);
    [rewrite (Hwrite eq_refl)|]; cbn;
    destruct (Js.truthy (Js.or (browserWSEndpoint connectionData) (WEBHOOK_URL W)));
    rewrite Hrel; intros ->; cbn; (split; [done|]);
    (eexists; split; [by rewrite <- app_assoc|]);
    rewrite Hmade, !List.filter_app, Hnone; cbn;
    by rewrite filter_replicate_cookies.
Qed.

Lemma in_replicate (c d : Call) (n : nat) : In c (replicate n d) -> c = d.
Proof. induction n as [|n IH]; cbn; [done|]. intros [<-|Hc]; auto. Qed.

(** X7. The release fits the handle in every world and on every path: a
    browser that [getBrowser] attached to is never closed, and one that it
    launched is never just disconnected. *)
Theorem release_fits_the_handle (W : World) (fs : gmap string string)
    (url : string) (connectionData : ConnectionData) (cookieSavePath : string)
    (defaultCookies : list Cookie) (browser : Browser) (s : State) :
  getBrowser W connectionData defaultCookies (initial fs) = (Normal browser, s) ->
  let made := calls (snd (getCookies W url connectionData cookieSavePath
                            defaultCookies (initial fs))) in
  match browser with
  | Connected _ => ~ In browser_close made
  | Launched _ => ~ In browser_disconnect made
  end.
Proof.
  intros Hb made.
  destruct (session_shape W fs url connectionData cookieSavePath defaultCookies)
    as (rest & remaining & Hcalls & Hscript).
  subst made. rewrite Hcalls, Hb. cbn [snd].
  destruct (getBrowser_frame _ _ _ _ _ _ Hb)
    as (_ & _ & _ & before & -> & Hacq & _).
  pose proof (mode_agrees_with_handle _ _ _ _ _ _ Hb) as Hmode.
  assert (forall c, In c rest ->
            In c (session_script W url connectionData cookieSavePath)) as Hin.
  { intros c Hc. rewrite Hscript. apply in_or_app. by left. }
  unfold session_script in Hin. rewrite Hmode in Hin. cbn [calls initial app].
  assert (forall c, In c before -> is_acquisition c = true) as Hbefore
    by (apply forallb_forall; exact Hacq).
  destruct browser; intros [Hc|Hc]%in_app_or;
    try (by apply Hbefore in Hc);
    apply Hin in Hc; cbn in Hc;
    repeat (destruct Hc as [Hc|Hc]; [discriminate|]);
    apply in_app_or in Hc as [Hc|Hc];
    try (apply in_replicate in Hc; discriminate).
  all: destruct (settle W page_waitForFunction), (Js.nonempty cookieSavePath);
    cbn in Hc; intuition discriminate.
Qed.

(** X8. The only file a run can touch is the one at [cookieSavePath]:
    afterwards the files are as before, or as before with that one file
    holding the text of the last snapshot, and the latter only for a
    non-empty path after the wait was rejected.  Every other path reads as
    it did. *)
Theorem only_the_cookie_file_changes (W : World) (fs : gmap string string)
    (url : string) (connectionData : ConnectionData) (cookieSavePath : string)
    (defaultCookies : list Cookie) :
  (files (snd (getCookies W url connectionData cookieSavePath defaultCookies
                 (initial fs))) = fs \/
   files (snd (getCookies W url connectionData cookieSavePath defaultCookies
                 (initial fs)))
   = <[cookieSavePath := JSON_stringify W (last_snapshot W)]> fs /\
   Js.nonempty cookieSavePath = true /\
   settle W page_waitForFunction = Rejects) /\
  forall other : string,
    other <> cookieSavePath ->
    files (snd (getCookies W url connectionData cookieSavePath defaultCookies
                  (initial fs))) !! other = fs !! other.
Proof.
  pose proof (getCookies_files W url connectionData cookieSavePath
                defaultCookies (initial fs)) as Hfiles.
  cbn [files initial] in Hfiles.
  split; [exact Hfiles|].
  intros other Hother. destruct Hfiles as [->|(-> & _)]; [done|].
  by rewrite lookup_insert_ne.
Qed.


(** ** The test script and the usage example *)

Ltac unfold_script :=
  unfold script_catch, script_bind, console_log, console_err, process_exit,
    await, array_of, script_ret, start.

(** X10. With neither environment variable set the test script makes no
    call on a browser and changes no file: it prints that the test
    failed with the message of the configuration error, prints the tip
    with the example paths, and ends the process with status 1. *)
Theorem runTest_without_configuration (W : World) (says : Messages)
    (fs : gmap string string) :
  Js.truthy (PUPPETEER_EXECUTABLE_PATH W) = false ->
  Js.truthy (WEBHOOK_URL W) = false ->
  fst (runTest W says (start fs)) = Exits 1 /\
  snd (snd (runTest W says (start fs))) = initial fs /\
  exists before,
    fst (snd (runTest W says (start fs)))
    = before ++
      [error_line "❌ Test failed: Set either PUPPETEER_EXECUTABLE_PATH or WEBHOOK_URL environment variable";
       log_line (String.app nl "💡 Tip: Set the PUPPETEER_EXECUTABLE_PATH environment variable or pass executablePath in connectionData");
       log_line "Example paths:";
       log_line "  macOS: /Applications/Google Chrome.app/Contents/MacOS/Google Chrome";
       log_line "  Linux: /usr/bin/google-chrome";
       log_line "  Windows: C:\Program Files\Google\Chrome\Application\chrome.exe"].
Proof.
  intros Hexe Hws.
  set (r := runTest W says (start fs)). as_equation r.
  unfold runTest. unfold_script. cbn [fst snd].
  rewrite (unconfigured W _ empty_object _ _ _ eq_refl eq_refl Hws Hexe).
  cbn. intros ->. cbn. split; [done|]. split; [done|].
  match goal with
  | |- exists before, ?printed = before ++ _ => by exists (take 7 printed)
  end.
Qed.

(** How [runTest] ends for each way [getCookies] can end. *)
Lemma runTest_cases (W : World) (says : Messages) (fs : gmap string string) :
  let run := getCookies W test_url empty_object test_cookies_json []
               (initial fs) in
  let r := runTest W says (start fs) in
  snd (snd r) = snd run /\
  match fst run with
  | Normal (Some items) =>
      fst r = Returns tt /\
      In (log_line (String.app "📊 Extracted "
                      (String.app (decimal (length items)) " cookies:")))
         (fst (snd r))
  | Normal None | Throw _ =>
      fst r = Exits 1 /\
      ~ In (log_line "💾 Cookies saved to test-cookies.json") (fst (snd r))
  | Pending =>
      fst r = Hangs /\
      ~ In (log_line "💾 Cookies saved to test-cookies.json") (fst (snd r))
  end.
Proof.
  intros run r. as_equation r. subst run.
  unfold runTest. unfold_script. cbn [fst snd].
  change (new_invocation (initial fs)) with (initial fs).
  change "https://httpbin.org/cookies/set/test/value" with test_url.
  destruct (getCookies W test_url empty_object test_cookies_json []
              (initial fs)) as [[[items|]|e|] s'].
  - cbn [fst snd]. destruct (0 <? length items)%nat.
    + match goal with
      | |- context [forEach _ items 0 ?st] =>
          destruct (forEach_prints
                      (fun cookie index =>
                         String.concat EmptyString
                           ["   "; decimal (index + 1); ". "; name cookie;
                            " = "; value cookie; " (domain: "; domain cookie;
                            ")"])
                      items 0 st) as (lines & Hloop & _)
      end.
      unfold console_log in Hloop. cbn beta in Hloop. rewrite Hloop.
      cbn [fst snd]. intros ->. cbn [fst snd].
      split; [done|]. split; [done|].
      rewrite <- !app_assoc. cbn [app]. apply in_cons, in_cons, in_cons.
      do 5 apply in_cons. by left.
    + intros ->. cbn [fst snd]. split; [done|]. split; [done|].
      rewrite <- !app_assoc. cbn [app]. do 8 apply in_cons. by left.
  - cbn. destruct (includes _ _); cbn; intros ->; cbn;
      (split; [done|]); (split; [done|]); intuition discriminate.
  - cbn. destruct (includes _ _); cbn; intros ->; cbn;
      (split; [done|]); (split; [done|]); intuition discriminate.
  - cbn. intros ->. cbn. split; [done|]. split; [done|].
    intuition discriminate.
Qed.

(** X11. The test script tells the truth when it prints that the cookies
    were saved: in that case it ran to its end, the file
    [test-cookies.json] holds the text of the last snapshot, and the
    number of cookies it printed is the size of that snapshot. *)
Theorem runTest_saved_is_true (W : World) (says : Messages)
    (fs : gmap string string) :
  In (log_line "💾 Cookies saved to test-cookies.json")
     (fst (snd (runTest W says (start fs)))) ->
  fst (runTest W says (start fs)) = Returns tt /\
  files (snd (snd (runTest W says (start fs)))) !! test_cookies_json
  = Some (JSON_stringify W (last_snapshot W)) /\
  In (log_line (String.app "📊 Extracted "
                  (String.app (decimal (length (last_snapshot W))) " cookies:")))
     (fst (snd (runTest W says (start fs)))).
Proof.
  intros Hsaved.
  destruct (runTest_cases W says fs) as [Hstate Hcases].
  pose proof (returned_is_written W test_url empty_object test_cookies_json []
                (initial fs)) as Hwritten.
  rewrite Hstate.
  destruct (fst (getCookies W test_url empty_object test_cookies_json []
                   (initial fs))) as [[items|]|e|];
    [|by destruct Hcases..].
  destruct (Hwritten items eq_refl eq_refl) as [-> Hfile].
  by destruct Hcases.
Qed.

(** X12. The test script calls [process.exit] exactly when [getCookies]
    throws or returns [undefined], and then with status 1; it runs to its
    end exactly when [getCookies] returns an array; it never throws to
    its caller.  It makes no external call of its own, and no file other
    than [test-cookies.json] is changed. *)
Theorem runTest_status (W : World) (says : Messages) (fs : gmap string string) :
  snd (snd (runTest W says (start fs)))
  = snd (getCookies W test_url empty_object test_cookies_json [] (initial fs)) /\
  (forall code,
     fst (runTest W says (start fs)) = Exits code <->
     code = 1 /\
     (fst (getCookies W test_url empty_object test_cookies_json [] (initial fs))
      = Normal None \/
      exists e,
        fst (getCookies W test_url empty_object test_cookies_json []
               (initial fs)) = Throw e)) /\
  (fst (runTest W says (start fs)) = Returns tt <->
   exists items,
     fst (getCookies W test_url empty_object test_cookies_json [] (initial fs))
     = Normal (Some items)) /\
  (forall thrown, fst (runTest W says (start fs)) <> Raises thrown) /\
  forall other : string,
    other <> test_cookies_json ->
    files (snd (snd (runTest W says (start fs)))) !! other = fs !! other.
Proof.
  destruct (runTest_cases W says fs) as [Hstate Hcases].
  split; [exact Hstate|].
  assert (forall other : string,
            other <> test_cookies_json ->
            files (snd (snd (runTest W says (start fs)))) !! other
            = fs !! other) as Hframe.
  { intros other Hother. rewrite Hstate.
    destruct (getCookies_files W test_url empty_object test_cookies_json []
                (initial fs)) as [->|(-> & _)]; [done|].
    by rewrite lookup_insert_ne. }
  destruct (fst (getCookies W test_url empty_object test_cookies_json []
                   (initial fs))) as [[items|]|e|];
    destruct Hcases as [-> _]; (split; [|split; [|split; [|exact Hframe]]]);
    try (intros thrown; discriminate).
  all: try (intros code; split; [intros [= <-]|intros [-> _]]; eauto; fail).
  all: try (intros code; split;
            [discriminate
            |intros [_ [?|[? ?]]]; discriminate]).
  all: try (split; [intros _|done]; eauto; fail).
  all: split; [discriminate|intros [? ?]; discriminate].
Qed.

Ltac next_invocation :=
  match goal with
  | |- context [getCookies ?W ?u ?c ?p ?d ?s] =>
      let H := fresh "Hrun" in
      destruct (getCookies W u c p d s) as [[[?|]|?|] ?] eqn:H; cbn
  end.



(** ** The further properties at concrete inputs *)

(** The parameter names one endpoint, the environment another. *)
Lemma parameter_overrides_environment_witness :
  List.filter is_attach
    (calls (snd (getBrowser (world_with_env closing)
                   {| executablePath := None;
                      browserWSEndpoint := Some other_endpoint |}
                   [] (initial no_files))))
  = [puppeteer_connect other_endpoint].
Proof.
  exact (proj1 (parameter_overrides_environment (world_with_env closing)
                  no_files
                  {| executablePath := None;
                     browserWSEndpoint := Some other_endpoint |}
                  [] other_endpoint eq_refl) eq_refl).
Defined.

(** The attach is refused although an executable path is given too. *)
Lemma attach_failure_is_reported_and_thrown_witness :
  getCookies (world attach_fails) example_url both_supplied out_json []
    (initial no_files)
  = (Throw (Failed (puppeteer_connect endpoint)),
     {| calls := [puppeteer_connect endpoint;
                  console_error "Error connecting to webhook URL"];
        files := no_files; cookies := []; listening := false |}).
Proof.
  exact (attach_failure_is_reported_and_thrown (world attach_fails) no_files
           example_url both_supplied out_json [] endpoint
           eq_refl eq_refl eq_refl).
Defined.

Lemma launch_failure_is_reported_and_thrown_witness :
  fst (getCookies (world launch_fails) example_url local_chrome out_json []
         (initial no_files))
  = Throw (Failed (puppeteer_launch chrome false)).
Proof.
  exact (f_equal fst
           (launch_failure_is_reported_and_thrown (world launch_fails) no_files
              example_url local_chrome out_json [] chrome
              eq_refl eq_refl eq_refl eq_refl)).
Defined.

Lemma page_failure_is_thrown_witness :
  getCookies (world page_fails) example_url local_chrome out_json []
    (initial no_files)
  = (Throw (Failed browser_newPage),
     log browser_newPage (log (puppeteer_launch chrome false) (initial no_files))).
Proof.
  exact (page_failure_is_thrown (world page_fails) no_files example_url
           local_chrome out_json [] (Launched chrome)
           (log (puppeteer_launch chrome false) (initial no_files))
           eq_refl eq_refl).
Defined.

(** The [disconnect] fails at closure; the cookies are returned. *)
Lemma release_failure_is_reported_not_thrown_witness :
  fst (getCookies (world release_fails) example_url remote_browser out_json []
         (initial no_files))
  = Normal (Some [session_cookie; initial_cookie]).
Proof.
  refine (proj1 (release_failure_is_reported_not_thrown (world release_fails)
                   no_files example_url remote_browser out_json [] _ _ eq_refl)).
  - split; [by eexists _, _|by repeat split].
  - intros _ data. reflexivity.
Defined.

Lemma release_fits_the_handle_witness :
  ~ In browser_close
      (calls (snd (getCookies (world closing) example_url remote_browser
                     out_json [] (initial no_files)))).
Proof.
  exact (release_fits_the_handle (world closing) no_files example_url
           remote_browser out_json [] (Connected endpoint)
           (log (puppeteer_connect endpoint) (initial no_files)) eq_refl).
Defined.


Lemma runTest_without_configuration_witness :
  fst (runTest (world closing) silent (start no_files)) = Exits 1.
Proof.
  exact (proj1 (runTest_without_configuration (world closing) silent no_files
                  eq_refl eq_refl)).
Defined.

(** With [WEBHOOK_URL] set and no response observed, the file holds the
    text of the empty array. *)
Lemma runTest_saved_is_true_witness :
  files (snd (snd (runTest (world_with_env closing) silent (start no_files))))
    !! test_cookies_json
  = Some (Json.stringify []).
Proof.
  refine (proj1 (proj2 (runTest_saved_is_true (world_with_env closing) silent
                          no_files _))).
  vm_compute. auto 20.
Defined.

